(** * Settings resolution of the dev proxy: [src/utils/detect-server.js]

    A shallow embedding of [serverSettings] and of the helpers it calls,
    followed by the properties of the specification.

    The JavaScript values the function inspects are modelled by [value];
    objects are association lists in insertion order.  The collaborators
    (framework detector, interactive prompt, port prober, file reader,
    logger) are oracles of a [world]; every call to one of them is
    recorded in a trace, and the oracle may answer according to that
    trace.  A computation is a function from the trace so far to an
    outcome (a result or a thrown error) and the extended trace. *)

From Stdlib Require Import ZArith List String Ascii Bool Lia.
From Stdlib Require Import DecimalString.
Import ListNotations.
Open Scope string_scope.
Set Warnings "-register-all".

(* ================================================================== *)
(** ** JavaScript values *)

(** A JavaScript number.  Integral doubles are kept as integers ([-0] is
    identified with [0]: the code cannot tell them apart, it only uses
    [===], truthiness, [typeof] and template literals).  A finite double
    that is not integral is named by its canonical decimal rendering,
    e.g. ["3000.5"]. *)
Inductive number : Type :=
| NInt (z : Z)
| NFrac (repr : string)
| NInf (negative : bool)
| NNaN.

Inductive value : Type :=
| VUndef
| VNull
| VBool (b : bool)
| VNum (n : number)
| VStr (s : string)
| VBuf (bytes : string)
| VArr (items : list value)
| VObj (props : list (string * value)).

(** A plain object: its own properties, in insertion order. *)
Definition obj : Type := list (string * value).

Definition vint (z : Z) : value := VNum (NInt z).

(** [o.k]: the property, or [undefined] when the object has none. *)
Fixpoint get_prop (o : obj) (k : string) : value :=
  match o with
  | [] => VUndef
  | (k', v) :: rest => if String.eqb k k' then v else get_prop rest k
  end.

(** [o.k = v]: overwrite in place, or append a new property. *)
Fixpoint set_prop (o : obj) (k : string) (v : value) : obj :=
  match o with
  | [] => [(k, v)]
  | (k', v') :: rest =>
      if String.eqb k k' then (k', v) :: rest else (k', v') :: set_prop rest k v
  end.

(** [k in o] for own properties. *)
Fixpoint has_prop (o : obj) (k : string) : bool :=
  match o with
  | [] => false
  | (k', _) :: rest => String.eqb k k' || has_prop rest k
  end.

(** Property access on a value known to be an object. *)
Definition get_member (v : value) (k : string) : value :=
  match v with
  | VObj props => get_prop props k
  | _ => VUndef
  end.

(** ToBoolean. *)
Definition truthy (v : value) : bool :=
  match v with
  | VUndef | VNull => false
  | VBool b => b
  | VNum (NInt z) => negb (Z.eqb z 0)
  | VNum NNaN => false
  | VNum _ => true
  | VStr s => negb (String.eqb s EmptyString)
  | VBuf _ | VArr _ | VObj _ => true
  end.

(** [a || b] and [a && b]: they return one of their operands. *)
Definition js_or (a b : value) : value := if truthy a then a else b.
Definition js_and (a b : value) : value := if truthy a then b else a.

Inductive js_type : Type :=
| TUndefined | TObject | TBoolean | TNumber | TString.

Definition typeof (v : value) : js_type :=
  match v with
  | VUndef => TUndefined
  | VNull => TObject
  | VBool _ => TBoolean
  | VNum _ => TNumber
  | VStr _ => TString
  | VBuf _ | VArr _ | VObj _ => TObject
  end.

Definition is_number (v : value) : bool :=
  match v with VNum _ => true | _ => false end.

Definition is_string (v : value) : bool :=
  match v with VStr _ => true | _ => false end.

(** [isPlainObject] of the [is-plain-obj] package. *)
Definition isPlainObject (v : value) : bool :=
  match v with VObj _ => true | _ => false end.

Definition number_eq (a b : number) : bool :=
  match a, b with
  | NInt x, NInt y => Z.eqb x y
  | NFrac x, NFrac y => String.eqb x y
  | NInf x, NInf y => Bool.eqb x y
  | _, _ => false
  end.

(** [a === b].  Objects, arrays and buffers are compared by identity in
    JavaScript; the operands the code compares come from different
    sources (the configuration, a descriptor, the prober), hence are
    never the same object. *)
Definition strict_eq (a b : value) : bool :=
  match a, b with
  | VUndef, VUndef => true
  | VNull, VNull => true
  | VBool x, VBool y => Bool.eqb x y
  | VNum x, VNum y => number_eq x y
  | VStr x, VStr y => String.eqb x y
  | _, _ => false
  end.

Definition is_str (v : value) (s : string) : bool := strict_eq v (VStr s).

(** The decimal digits of an integer: what JavaScript prints for the
    integers up to [2^53] in magnitude. *)
Definition string_of_Z (z : Z) : string := NilZero.string_of_int (Z.to_int z).

(** Whether the decimal [d] is read back as the double [z]: it lies
    within half a gap of [z], a tie going to the even mantissa. *)
Definition rounds_to (z gapBelow gapAbove : Z) (evenMantissa : bool) (d : Z) : bool :=
  if (d <? z)%Z
  then (2 * (z - d) <? gapBelow)%Z || (evenMantissa && (2 * (z - d) =? gapBelow)%Z)
  else (2 * (d - z) <? gapAbove)%Z || (evenMantissa && (2 * (d - z) =? gapAbove)%Z).

(** The decimal with the fewest significant digits that is read back as
    [z], the closest one when there are two: multiples of [scale] are
    tried, from the coarsest scale down to 1. *)
Fixpoint shortest_decimal (fuel : nat) (scale z gapBelow gapAbove : Z)
    (evenMantissa : bool) : Z :=
  match fuel with
  | O => z
  | S fuel' =>
      let below := (z / scale * scale)%Z in
      let above := (below + scale)%Z in
      match rounds_to z gapBelow gapAbove evenMantissa below,
            rounds_to z gapBelow gapAbove evenMantissa above with
      | true, true =>
          if (z - below <? above - z)%Z then below
          else if (above - z <? z - below)%Z then above
          else if Z.even (below / scale) then below else above
      | true, false => below
      | false, true => above
      | false, false =>
          shortest_decimal fuel' (scale / 10) z gapBelow gapAbove evenMantissa
      end
  end.

Fixpoint strip_trailing_zeros (s : string) : string :=
  match s with
  | EmptyString => EmptyString
  | String c rest =>
      match strip_trailing_zeros rest with
      | EmptyString => if Ascii.eqb c "0"%char then EmptyString else String c EmptyString
      | kept => String c kept
      end
  end.

(** Number::toString on a positive integral double above [2^53]: the
    shortest decimal, written out in full up to 21 digits and in
    exponent form beyond. *)
Definition large_integer_string (z : Z) : string :=
  let ulp := (2 ^ (Z.log2 z + 1 - 53))%Z in
  let mantissa := (z / ulp)%Z in
  let gapBelow := if (mantissa =? 2 ^ 52)%Z then (ulp / 2)%Z else ulp in
  let digits := String.length (string_of_Z z) in
  let shortest :=
    shortest_decimal digits (10 ^ (Z.of_nat digits - 1)) z gapBelow ulp
      (Z.even mantissa) in
  let written := string_of_Z shortest in
  if (String.length written <=? 21)%nat then written
  else
    match strip_trailing_zeros written with
    | String first EmptyString =>
        String first ("e+" ++ string_of_Z (Z.of_nat (String.length written) - 1))
    | String first more =>
        String first ("." ++ more ++ "e+"
                      ++ string_of_Z (Z.of_nat (String.length written) - 1))
    | EmptyString => written
    end.

(** Number::toString on an integral double. *)
Definition js_integer_string (z : Z) : string :=
  if (Z.abs z <=? 2 ^ 53)%Z then string_of_Z z
  else if (z <? 0)%Z then "-" ++ large_integer_string (Z.abs z)
  else large_integer_string z.

Definition number_to_string (n : number) : string :=
  match n with
  | NInt z => js_integer_string z
  | NFrac repr => repr
  | NInf false => "Infinity"
  | NInf true => "-Infinity"
  | NNaN => "NaN"
  end.

(** [Array.prototype.join] on strings. *)
Fixpoint join (sep : string) (l : list string) : string :=
  match l with
  | [] => EmptyString
  | [x] => x
  | x :: rest => x ++ sep ++ join sep rest
  end.

(** ToString, as applied by a template literal [`${v}`], for the values
    it converts (see [stringifies] below for those it rejects). *)
Fixpoint ToString (v : value) : string :=
  match v with
  | VUndef => "undefined"
  | VNull => "null"
  | VBool true => "true"
  | VBool false => "false"
  | VNum n => number_to_string n
  | VStr s => s
  | VBuf bytes => bytes
  | VArr items =>
      join ","
        ((fix each (l : list value) : list string :=
            match l with
            | [] => []
            | VUndef :: rest => EmptyString :: each rest
            | VNull :: rest => EmptyString :: each rest
            | x :: rest => ToString x :: each rest
            end) items)
  | VObj _ => "[object Object]"
  end.

(** Whether ToString converts a value.  An object with an own
    [toString] property cannot be converted: the property hides
    [Object.prototype.toString], it is data and cannot be called, and
    [valueOf] gives back the object itself, so the conversion ends in a
    [TypeError].  An array is converted through its elements. *)
Fixpoint stringifies (v : value) : bool :=
  match v with
  | VObj props => negb (has_prop props "toString")
  | VArr items =>
      (fix all (l : list value) : bool :=
         match l with
         | [] => true
         | x :: rest => stringifies x && all rest
         end) items
  | _ => true
  end.

(* ================================================================== *)
(** ** Collaborators *)

(** Modelled from the spec: the framework descriptor returned by the
    detector ([@netlify/framework-info], not part of the sources).  The
    fields are the properties the code reads:
    [name], [dev.commands], [dev.port], [build.directory],
    [staticAssetsDirectory], [env], [watch.commands], and the top-level
    [command] interpolated into the prompt labels.  [fw_commands] is the
    top-level [commands] property the prompt options add to their copy
    of the descriptor; a descriptor coming from the detector has none. *)
Record framework : Type := {
  fw_name : string;
  fw_command : value;
  fw_commands : option (list (list string));
  fw_dev_commands : list string;
  fw_dev_port : value;
  fw_build_directory : value;
  fw_staticAssetsDirectory : value;
  fw_env : value;
  fw_watch_commands : list (list string)
}.

(** [{ ...framework, commands: [command] }]. *)
Definition spread_commands (f : framework) (c : list string) : framework :=
  {| fw_name := fw_name f;
     fw_command := fw_command f;
     fw_commands := Some [c];
     fw_dev_commands := fw_dev_commands f;
     fw_dev_port := fw_dev_port f;
     fw_build_directory := fw_build_directory f;
     fw_staticAssetsDirectory := fw_staticAssetsDirectory f;
     fw_env := fw_env f;
     fw_watch_commands := fw_watch_commands f |}.

(** One selectable item handed to the prompt. *)
Record choice : Type := {
  ch_name : string;
  ch_value : framework;
  ch_short : string
}.

(** Modelled from the spec: [readFileAsyncCatchError] of [../lib/fs]
    (not part of the sources) resolves to [{ content }] or to
    [{ error }]; only the error's [message] is used. *)
Inductive read_result : Type :=
| ReadContent (content : string)
| ReadError (message : string).

Inductive event : Type :=
| EvLog (message : string)
| EvListFrameworks (projectDir : string)
| EvHasFramework (id projectDir : string)
| EvGetFramework (id projectDir : string)
| EvPrompt (message : string) (choices : list choice)
| EvGetPort (preferred : value) (acquired : Z)
| EvReadFile (file : string)
| EvCwd.

Definition trace : Type := list event.

(** The environment of a call: constants and pure helpers of the
    runtime, and the oracles of the collaborators.  An oracle sees the
    trace of everything that happened before it is asked. *)
Record world : Type := {
  w_NETLIFYDEVLOG : string;
  w_NETLIFYDEVWARN : string;
  w_chalk_yellow : string -> string;
  w_path_dirname : string -> string;
  w_path_relative : string -> string -> string;
  w_invalid_arg_type : string -> value -> string;
  w_fuzzy_filter : string -> list string -> list string;
  w_process_cwd : trace -> string;
  w_listFrameworks : trace -> string -> list framework;
  w_hasFramework : trace -> string -> string -> bool;
  w_getFramework : trace -> string -> string -> framework;
  w_prompt : trace -> list choice -> framework;
  w_getPort : trace -> value -> Z;
  w_readFile : trace -> string -> read_result
}.

(* ================================================================== *)
(** ** Computations *)

Inductive js_error : Type :=
| JsError (message : string)
| JsTypeError (message : string).

Inductive outcome (A : Type) : Type :=
| Ok (a : A)
| Throw (e : js_error).
Arguments Ok {A} a.
Arguments Throw {A} e.

Definition M (A : Type) : Type := trace -> outcome A * trace.

Definition ret {A} (a : A) : M A := fun t => (Ok a, t).

Definition throw {A} (e : js_error) : M A := fun t => (Throw e, t).

Definition bind {A B} (m : M A) (f : A -> M B) : M B :=
  fun t =>
    match m t with
    | (Ok a, t') => f a t'
    | (Throw e, t') => (Throw e, t')
    end.

Definition emit (e : event) : M unit := fun t => (Ok tt, (t ++ [e])%list).

Declare Scope js_scope.
Delimit Scope js_scope with js.
Notation "x <- m ;; k" := (bind m (fun x => k))
  (at level 61, m at next level, right associativity) : js_scope.
Notation "m ;; k" := (bind m (fun _ => k))
  (at level 61, right associativity) : js_scope.
Open Scope js_scope.

(** [if (c) throw e]. *)
Definition throw_if (c : bool) (e : js_error) : M unit :=
  if c then throw e else ret tt.

(** A double quote, and a quoted word, for the messages. *)
Definition dq : string := String (ascii_of_nat 34) EmptyString.
Definition q (s : string) : string := dq ++ s ++ dq.

(* ================================================================== *)
(** ** The program *)

Definition DEFAULT_PORT : Z := 8888.
Definition DEFAULT_STATIC_PORT : Z := 3999.

Section Program.

Variable w : world.

(** *** Calls to the collaborators *)

Definition log (message : string) : M unit := emit (EvLog message).

Definition getPort (preferred : value) : M value :=
  fun t =>
    let acquired := w_getPort w t preferred in
    (Ok (vint acquired), (t ++ [EvGetPort preferred acquired])%list).

Definition listFrameworks (projectDir : string) : M (list framework) :=
  fun t => (Ok (w_listFrameworks w t projectDir), (t ++ [EvListFrameworks projectDir])%list).

Definition hasFramework (id projectDir : string) : M bool :=
  fun t => (Ok (w_hasFramework w t id projectDir), (t ++ [EvHasFramework id projectDir])%list).

Definition getFramework (id projectDir : string) : M framework :=
  fun t => (Ok (w_getFramework w t id projectDir), (t ++ [EvGetFramework id projectDir])%list).

Definition inquirer_prompt (message : string) (choices : list choice) : M framework :=
  fun t => (Ok (w_prompt w t choices), (t ++ [EvPrompt message choices])%list).

Definition readFileAsyncCatchError (file : string) : M read_result :=
  fun t => (Ok (w_readFile w t file), (t ++ [EvReadFile file])%list).

Definition process_cwd : M string :=
  fun t => (Ok (w_process_cwd w t), (t ++ [EvCwd])%list).

(** [path.relative(from, to)]: Node rejects an argument that is not a
    string with a [TypeError]. *)
Definition path_relative (from : string) (to : value) : M string :=
  match to with
  | VStr s => ret (w_path_relative w from s)
  | _ => throw (JsTypeError (w_invalid_arg_type w "to" to))
  end.

(** A template literal [`${v}`] over a value of the configuration. *)
Definition template (v : value) : M string :=
  if stringifies v then ret (ToString v)
  else throw (JsTypeError "Cannot convert object to primitive value").

(** *** [readHttpsSettings] (lines 14-40).  The two reads are started
    together and both complete before either result is looked at. *)
Definition readHttpsSettings (options : value) : M value :=
  throw_if (negb (isPlainObject options))
    (JsTypeError "https options should be an object with 'keyFile' and 'certFile' string properties") ;;
  match get_member options "keyFile" with
  | VStr keyFile =>
      match get_member options "certFile" with
      | VStr certFile =>
          k <- readFileAsyncCatchError keyFile ;;
          c <- readFileAsyncCatchError certFile ;;
          match k with
          | ReadError keyError =>
              throw (JsError ("Error reading private key file: " ++ keyError))
          | ReadContent key =>
              match c with
              | ReadError certError =>
                  throw (JsError ("Error reading certificate file: " ++ certError))
              | ReadContent cert => ret (VObj [("key", VBuf key); ("cert", VBuf cert)])
              end
          end
      | _ => throw (JsTypeError "Certificate file configuration should be a string")
      end
  | _ => throw (JsTypeError "Private key file configuration should be a string")
  end.

(** *** [getSettingsFromFramework] (lines 42-55) *)
Definition getSettingsFromFramework (framework : framework) : obj :=
  let dist := fw_build_directory framework in
  let command :=
    match fw_dev_commands framework with
    | c :: _ => VStr c
    | [] => VUndef
    end in
  let frameworkPort := fw_dev_port framework in
  let frameworkName := fw_name framework in
  let staticDir := fw_staticAssetsDirectory framework in
  let env := fw_env framework in
  [ ("command", command);
    ("frameworkPort", frameworkPort);
    ("dist", js_or staticDir dist);
    ("framework", VStr frameworkName);
    ("env", env) ].

(** *** [formatSettingsArrForInquirer] (lines 243-253) *)
Definition formatSettingsArrForInquirer (frameworks : list framework) : list choice :=
  List.concat
    (map
       (fun framework =>
          map
            (fun command =>
               {| ch_name :=
                    "[" ++ w_chalk_yellow w (fw_name framework) ++ "] "
                    ++ ToString (fw_command framework) ++ " " ++ join " " command;
                  ch_value := spread_commands framework command;
                  ch_short := fw_name framework ++ "-" ++ join "," command |})
            (fw_watch_commands framework))
       frameworks).

(** *** [filterSettings] (lines 232-241).  [w_fuzzy_filter] gives the
    strings [fuzzy.filter] matched. *)
Definition filterSettings (scriptInquirerOptions : list choice) (input : string)
  : list choice :=
  let filteredSettingNames :=
    w_fuzzy_filter w input (map ch_name scriptInquirerOptions) in
  filter (fun t => existsb (String.eqb (ch_name t)) filteredSettingNames)
    scriptInquirerOptions.

(** *** [detectFrameworkSettings] (lines 57-93) *)
Definition detectFrameworkSettings (projectDir : string) : M obj :=
  frameworks <- listFrameworks projectDir ;;
  match frameworks with
  | [only] => ret (getSettingsFromFramework only)
  | _ :: _ :: _ =>
      let scriptInquirerOptions := formatSettingsArrForInquirer frameworks in
      chosenFramework <-
        inquirer_prompt "Multiple possible start commands found" scriptInquirerOptions ;;
      log ("Add `framework = " ++ q (fw_name chosenFramework)
           ++ "` to [dev] section of your netlify.toml to avoid this selection prompt next time") ;;
      ret (getSettingsFromFramework chosenFramework)
  | [] => ret []
  end.

(** *** [validateCustomSettings] (lines 95-105) *)
Definition validateCustomSettings (devConfig : obj) : M unit :=
  let hasCommandAndTargetPort :=
    js_and (get_prop devConfig "command") (get_prop devConfig "targetPort") in
  throw_if
    (is_str (get_prop devConfig "framework") "#custom"
     && negb (truthy hasCommandAndTargetPort))
    (JsError (q "command" ++ " and " ++ q "targetPort"
              ++ " properties are required when " ++ q "framework"
              ++ " is set to " ++ q "#custom")) ;;
  throw_if
    (negb (is_str (get_prop devConfig "framework") "#custom")
     && truthy (get_prop devConfig "command")
     && truthy (get_prop devConfig "targetPort"))
    (JsError (q "framework" ++ " option must be set to " ++ q "#custom"
              ++ " when specifying both " ++ q "command" ++ " and "
              ++ q "targetPort" ++ " options")).

(** *** [getStaticServerSettings] (lines 213-228) *)
Definition getStaticServerSettings (dist port : value) (projectDir : string) : M obj :=
  dist <-
    (if negb (truthy dist) then
       log (w_NETLIFYDEVLOG w ++ " Using current working directory") ;;
       log (w_NETLIFYDEVWARN w ++ " Unable to determine public folder to serve files from") ;;
       log (w_NETLIFYDEVWARN w
            ++ " Setup a netlify.toml file with a [dev] section to specify your dev server settings.") ;;
       log (w_NETLIFYDEVWARN w
            ++ " See docs at: https://cli.netlify.com/netlify-dev#project-detection") ;;
       cwd <- process_cwd ;;
       ret (VStr cwd)
     else ret dist) ;;
  relative <- path_relative (w_path_dirname w projectDir) dist ;;
  log (w_NETLIFYDEVWARN w ++ " Running static server from " ++ q relative) ;;
  frameworkPort <- getPort (js_or port (vint DEFAULT_STATIC_PORT)) ;;
  ret [ ("noCmd", VBool true); ("frameworkPort", frameworkPort); ("dist", dist) ].

(** *** [serverSettings] (lines 107-209), in its five consecutive parts *)

(** Lines 108-135: the check of [framework] and the choice of where the
    settings come from. *)
Definition settingsOrigin (devConfig flags : obj) (projectDir : string) : M obj :=
  throw_if (negb (is_string (get_prop devConfig "framework")))
    (JsTypeError ("Invalid " ++ q "framework" ++ " option provided in config")) ;;
  if truthy (get_prop flags "dir") then
    log (w_NETLIFYDEVWARN w ++ " Using simple static server because --dir flag was specified") ;;
    getStaticServerSettings (get_prop flags "dir") (get_prop flags "staticServerPort")
      projectDir
  else if is_str (get_prop devConfig "framework") "#auto"
          && negb (truthy (js_and (get_prop devConfig "command")
                                  (get_prop devConfig "targetPort"))) then
    detectFrameworkSettings projectDir
  else if is_str (get_prop devConfig "framework") "#custom"
          || truthy (js_and (get_prop devConfig "command")
                            (get_prop devConfig "targetPort")) then
    validateCustomSettings devConfig ;;
    ret [ ("framework", VStr "#custom") ]
  else if negb (is_str (get_prop devConfig "framework") "#static") then
    hasConfigFramework <-
      hasFramework (ToString (get_prop devConfig "framework")) projectDir ;;
    throw_if (negb hasConfigFramework)
      (JsError ("Specified " ++ q "framework" ++ " detector "
                ++ q (ToString (get_prop devConfig "framework"))
                ++ " did not pass requirements for your project")) ;;
    framework <- getFramework (ToString (get_prop devConfig "framework")) projectDir ;;
    ret (getSettingsFromFramework framework)
  else ret [].

Definition port_conflict_message : string :=
  "The " ++ q "port"
  ++ " option you specified conflicts with the port of your application. Please use a different value for "
  ++ q "port".

(** Lines 137-191: the overrides from the configuration, the static
    fallback and the checks on the application's port. *)
Definition applyOverrides (devConfig flags : obj) (projectDir : string) (settings : obj)
  : M obj :=
  settings <-
    (if negb (truthy (get_prop settings "noCmd")) && truthy (get_prop devConfig "command")
     then
       command <- template (get_prop devConfig "command") ;;
       log (w_NETLIFYDEVLOG w ++ " Overriding " ++ w_chalk_yellow w "command"
            ++ " with setting derived from netlify.toml [dev] block: "
            ++ command) ;;
       ret (set_prop settings "command" (get_prop devConfig "command"))
     else ret settings) ;;
  let settings :=
    set_prop settings "dist"
      (js_or (js_or (get_prop flags "dir") (get_prop devConfig "publish"))
             (get_prop settings "dist")) in
  settings <-
    (if truthy (get_prop devConfig "targetPort") then
       throw_if
         (truthy (get_prop devConfig "targetPort")
          && negb (is_number (get_prop devConfig "targetPort")))
         (JsError ("Invalid " ++ q "targetPort" ++ " option specified. The value of "
                   ++ q "targetPort" ++ " option must be an integer")) ;;
       throw_if (strict_eq (get_prop devConfig "targetPort") (get_prop devConfig "port"))
         (JsError (q "port" ++ " and " ++ q "targetPort"
                   ++ " options cannot have same values. Please consult the documentation for more details: https://cli.netlify.com/netlify-dev#netlifytoml-dev-block")) ;;
       throw_if (negb (truthy (get_prop settings "command")))
         (JsError ("No " ++ q "command" ++ " specified or detected. The " ++ q "command"
                   ++ " option is required to use " ++ q "targetPort" ++ " option.")) ;;
       throw_if (truthy (get_prop flags "dir"))
         (JsError (q "targetPort" ++ " option cannot be used in conjunction with "
                   ++ q "dir" ++ " flag which is used to run a static server.")) ;;
       ret (set_prop settings "frameworkPort" (get_prop devConfig "targetPort"))
     else ret settings) ;;
  throw_if
    (truthy (get_prop devConfig "port")
     && strict_eq (get_prop devConfig "port") (get_prop settings "frameworkPort"))
    (JsError port_conflict_message) ;;
  settings <-
    (if negb (truthy (get_prop settings "command"))
        && negb (truthy (get_prop settings "framework"))
        && negb (truthy (get_prop settings "noCmd"))
     then
       log (w_NETLIFYDEVWARN w ++ " No app server detected and no " ++ q "command"
            ++ " specified") ;;
       getStaticServerSettings (get_prop settings "dist")
         (get_prop flags "staticServerPort") projectDir
     else ret settings) ;;
  throw_if (negb (truthy (get_prop settings "frameworkPort")))
    (JsError ("No " ++ q "targetPort" ++ " option specified or detected.")) ;;
  throw_if
    (truthy (get_prop devConfig "port") && negb (is_number (get_prop devConfig "port")))
    (JsError ("Invalid " ++ q "port" ++ " option specified. The value of " ++ q "port"
              ++ " option must be an integer")) ;;
  throw_if
    (truthy (get_prop devConfig "port")
     && strict_eq (get_prop devConfig "port") (get_prop settings "frameworkPort"))
    (JsError port_conflict_message) ;;
  ret settings.

(** Lines 192-196: the proxy's own port. *)
Definition acquireProxyPort (devConfig : obj) (settings : obj) : M obj :=
  let triedPort := js_or (get_prop devConfig "port") (vint DEFAULT_PORT) in
  port <- getPort triedPort ;;
  let settings := set_prop settings "port" port in
  throw_if
    (negb (strict_eq triedPort (get_prop settings "port"))
     && truthy (get_prop devConfig "port"))
    (JsError ("Could not acquire required " ++ q "port" ++ ": " ++ ToString triedPort)) ;;
  ret settings.

(** Lines 198-203: the JWT defaults and the functions server. *)
Definition attachFunctions (devConfig : obj) (settings : obj) : M obj :=
  let settings :=
    set_prop settings "jwtSecret" (js_or (get_prop devConfig "jwtSecret") (VStr "secret")) in
  let settings :=
    set_prop settings "jwtRolePath"
      (js_or (get_prop devConfig "jwtRolePath") (VStr "app_metadata.authorization.roles")) in
  let settings :=
    set_prop settings "functions"
      (js_or (get_prop devConfig "functions") (get_prop settings "functions")) in
  if truthy (get_prop settings "functions") then
    functionsPort <- getPort (js_or (get_prop devConfig "functionsPort") (vint 0)) ;;
    ret (set_prop settings "functionsPort" functionsPort)
  else ret settings.

(** Lines 204-208: the TLS material. *)
Definition attachHttps (devConfig : obj) (settings : obj) : M obj :=
  if truthy (get_prop devConfig "https") then
    https <- readHttpsSettings (get_prop devConfig "https") ;;
    ret (set_prop settings "https" https)
  else ret settings.

(** The draft as it stands before line 192, and before line 204. *)
Definition draftBeforePort (devConfig flags : obj) (projectDir : string) : M obj :=
  settings <- settingsOrigin devConfig flags projectDir ;;
  applyOverrides devConfig flags projectDir settings.

Definition draftBeforeHttps (devConfig flags : obj) (projectDir : string) : M obj :=
  settings <- draftBeforePort devConfig flags projectDir ;;
  settings <- acquireProxyPort devConfig settings ;;
  attachFunctions devConfig settings.

Definition serverSettings (devConfig flags : obj) (projectDir : string) : M obj :=
  settings <- settingsOrigin devConfig flags projectDir ;;
  settings <- applyOverrides devConfig flags projectDir settings ;;
  settings <- acquireProxyPort devConfig settings ;;
  settings <- attachFunctions devConfig settings ;;
  attachHttps devConfig settings.

End Program.

(* ================================================================== *)
(** ** Notions used by the statements *)

(** A computation whose outcome does not depend on the past. *)
Definition history_independent {A} (m : M A) : Prop :=
  forall t1 t2, fst (m t1) = fst (m t2).

(** Collaborators that answer by their arguments alone. *)
Record deterministic (w : world) : Prop := {
  det_cwd : forall t1 t2, w_process_cwd w t1 = w_process_cwd w t2;
  det_listFrameworks :
    forall t1 t2 dir, w_listFrameworks w t1 dir = w_listFrameworks w t2 dir;
  det_hasFramework :
    forall t1 t2 id dir, w_hasFramework w t1 id dir = w_hasFramework w t2 id dir;
  det_getFramework :
    forall t1 t2 id dir, w_getFramework w t1 id dir = w_getFramework w t2 id dir;
  det_prompt : forall t1 t2 cs, w_prompt w t1 cs = w_prompt w t2 cs;
  det_getPort : forall t1 t2 v, w_getPort w t1 v = w_getPort w t2 v;
  det_readFile : forall t1 t2 f, w_readFile w t1 f = w_readFile w t2 f
}.

(** A prober stub that hands back the port it is asked for. *)
Definition returns_preferred (w : world) : Prop :=
  forall t z, w_getPort w t (vint z) = z.

(** How often the prompt was shown in a trace. *)
Fixpoint count_prompts (t : trace) : nat :=
  match t with
  | [] => 0%nat
  | EvPrompt _ _ :: rest => S (count_prompts rest)
  | _ :: rest => count_prompts rest
  end.

(** The (framework, watch command) pairs of a list of candidates, in
    the order of the candidates and of their watch commands. *)
Definition candidate_pairs (frameworks : list framework)
  : list (framework * list string) :=
  flat_map (fun f => map (pair f) (fw_watch_commands f)) frameworks.

(** The label of the option for a candidate and one of its watch
    commands: [[name] command watchArgs...]. *)
Definition label_of (w : world) (f : framework) (c : list string) : string :=
  "[" ++ w_chalk_yellow w (fw_name f) ++ "] " ++ ToString (fw_command f)
  ++ " " ++ join " " c.

(** *** Sample collaborators and inputs *)

Definition gatsby : framework :=
  {| fw_name := "gatsby";
     fw_command := VStr "gatsby";
     fw_commands := None;
     fw_dev_commands := ["gatsby develop"];
     fw_dev_port := vint 8000;
     fw_build_directory := VStr "public";
     fw_staticAssetsDirectory := VStr "static";
     fw_env := VObj [("GATSBY_LOGGER", VStr "yaml")];
     fw_watch_commands := [["develop"]; ["develop"; "--verbose"]] |}.

Definition create_react_app : framework :=
  {| fw_name := "create-react-app";
     fw_command := VStr "yarn";
     fw_commands := None;
     fw_dev_commands := ["react-scripts start"];
     fw_dev_port := vint 3000;
     fw_build_directory := VStr "build";
     fw_staticAssetsDirectory := VUndef;
     fw_env := VObj [];
     fw_watch_commands := [["start"]] |}.

(** Stubs: the detector finds both frameworks, the prompt answers with
    the second option, the prober returns the port it is asked for, and
    the file reader fails on ["c.pem"] only. *)
Definition stub_world : world :=
  {| w_NETLIFYDEVLOG := "[log]";
     w_NETLIFYDEVWARN := "[warn]";
     w_chalk_yellow := fun s => s;
     w_path_dirname := fun s => s;
     w_path_relative := fun _ to => to;
     w_invalid_arg_type := fun arg _ => "The " ++ arg ++ " argument must be of type string";
     w_fuzzy_filter := fun _ names => names;
     w_process_cwd := fun _ => "/home/user/site";
     w_listFrameworks := fun _ _ => [gatsby; create_react_app];
     w_hasFramework := fun _ _ _ => true;
     w_getFramework := fun _ _ _ => gatsby;
     w_prompt :=
       fun _ choices =>
         match choices with
         | _ :: second :: _ => ch_value second
         | _ => gatsby
         end;
     w_getPort := fun _ preferred =>
                    match preferred with
                    | VNum (NInt z) => z
                    | _ => 0%Z
                    end;
     w_readFile :=
       fun _ file =>
         if String.eqb file "c.pem" then ReadError "ENOENT: no such file, open 'c.pem'"
         else ReadContent "-----BEGIN-----" |}.

(** The same stubs, with a prober that finds every preferred port
    taken and returns the next one. *)
Definition busy_world : world :=
  {| w_NETLIFYDEVLOG := w_NETLIFYDEVLOG stub_world;
     w_NETLIFYDEVWARN := w_NETLIFYDEVWARN stub_world;
     w_chalk_yellow := w_chalk_yellow stub_world;
     w_path_dirname := w_path_dirname stub_world;
     w_path_relative := w_path_relative stub_world;
     w_invalid_arg_type := w_invalid_arg_type stub_world;
     w_fuzzy_filter := w_fuzzy_filter stub_world;
     w_process_cwd := w_process_cwd stub_world;
     w_listFrameworks := w_listFrameworks stub_world;
     w_hasFramework := w_hasFramework stub_world;
     w_getFramework := w_getFramework stub_world;
     w_prompt := w_prompt stub_world;
     w_getPort := fun t preferred => (w_getPort stub_world t preferred + 1)%Z;
     w_readFile := w_readFile stub_world |}.

(** The record of a run, or the empty object when it failed. *)
Definition record_of (run : outcome obj * trace) : obj :=
  match fst run with
  | Ok settings => settings
  | Throw _ => []
  end.

(** The second option the prompt shows for the two sample frameworks. *)
Definition sample_option : choice :=
  {| ch_name := "[gatsby] gatsby develop --verbose";
     ch_value := spread_commands gatsby ["develop"; "--verbose"];
     ch_short := "gatsby-develop,--verbose" |}.

Definition custom_on_8888 : obj :=
  [ ("framework", VStr "#custom"); ("command", VStr "npm start");
    ("targetPort", vint 8888) ].

Definition custom_pinned : obj :=
  [ ("framework", VStr "#custom"); ("command", VStr "npm start");
    ("targetPort", vint 3000); ("port", vint 9000) ].

Definition custom_string_port : obj :=
  [ ("framework", VStr "#custom"); ("command", VStr "npm start");
    ("targetPort", VStr "3000") ].

Definition custom_fractional_port : obj :=
  [ ("framework", VStr "#custom"); ("command", VStr "npm start");
    ("targetPort", VNum (NFrac "3000.5")) ].

Definition custom_without_port : obj :=
  [ ("framework", VStr "#custom"); ("command", VStr "npm run x") ].

Definition auto_with_target : obj :=
  [ ("framework", VStr "#auto"); ("command", VStr "npm start");
    ("targetPort", vint 3000) ].

Definition static_with_https : obj :=
  [ ("framework", VStr "#static");
    ("https", VObj [("keyFile", VStr "k.pem"); ("certFile", VStr "c.pem")]) ].

Definition dir_flag : obj := [ ("dir", VStr "./public") ].

(** *** Notions for the further properties *)

(** The [source] callback handed to the prompt (lines 77-83): every
    option while nothing is typed, the filtered options afterwards. *)
Definition promptSource (w : world) (scriptInquirerOptions : list choice)
    (input : value) : list choice :=
  if negb (truthy input) || is_str input EmptyString then scriptInquirerOptions
  else filterSettings w scriptInquirerOptions (ToString input).

(** The record [getStaticServerSettings] builds. *)
Definition static_record (port : Z) (dist : string) : obj :=
  [ ("noCmd", VBool true); ("frameworkPort", vint port); ("dist", VStr dist) ].

(** The draft after the assignments of lines 137-169, when none of the
    checks in between fails. *)
Definition overridden (devConfig flags settings : obj) : obj :=
  let withCommand :=
    if negb (truthy (get_prop settings "noCmd")) && truthy (get_prop devConfig "command")
    then set_prop settings "command" (get_prop devConfig "command")
    else settings in
  let withDist :=
    set_prop withCommand "dist"
      (js_or (js_or (get_prop flags "dir") (get_prop devConfig "publish"))
             (get_prop withCommand "dist")) in
  if truthy (get_prop devConfig "targetPort")
  then set_prop withDist "frameworkPort" (get_prop devConfig "targetPort")
  else withDist.

(** The test of line 176. *)
Definition needs_fallback (settings : obj) : bool :=
  negb (truthy (get_prop settings "command"))
  && negb (truthy (get_prop settings "framework"))
  && negb (truthy (get_prop settings "noCmd")).

(** The properties a settings record can have. *)
Definition known_properties : list string :=
  [ "command"; "frameworkPort"; "dist"; "framework"; "env"; "noCmd"; "port";
    "jwtSecret"; "jwtRolePath"; "functions"; "functionsPort"; "https" ].

Definition keys_within (names : list string) (o : obj) : bool :=
  forallb (fun kv => existsb (String.eqb (fst kv)) names) o.

(** The properties lines 192-206 assign. *)
Definition late_properties : list string :=
  [ "port"; "jwtSecret"; "jwtRolePath"; "functions"; "functionsPort"; "https" ].

(** The drafts lines 108-135 produce without a [dir] flag: nothing, the
    custom marker, or the settings of a descriptor. *)
Definition origin_shape (devConfig : obj) (origin : obj) : Prop :=
  origin = []
  \/ (origin = [ ("framework", VStr "#custom") ]
      /\ truthy (get_prop devConfig "command") = true
      /\ truthy (get_prop devConfig "targetPort") = true)
  \/ exists f, origin = getSettingsFromFramework f.

(** Kinds of events. *)
Definition is_prompt (e : event) : bool :=
  match e with EvPrompt _ _ => true | _ => false end.

Definition is_detector (e : event) : bool :=
  match e with
  | EvListFrameworks _ | EvHasFramework _ _ | EvGetFramework _ _ | EvPrompt _ _ => true
  | _ => false
  end.

Definition is_read (e : event) : bool :=
  match e with EvReadFile _ => true | _ => false end.

Definition count_events (kind : event -> bool) (t : trace) : nat :=
  List.length (filter kind t).

(** A computation that only appends events to the trace, at most
    [bound] of them of the given kind. *)
Definition appends {A} (kind : event -> bool) (bound : nat) (m : M A) : Prop :=
  forall t, exists added,
    snd (m t) = (t ++ added)%list /\ (count_events kind added <= bound)%nat.

(** *** Further sample collaborators and inputs *)

(** The stubs with another detector: it finds [found], and a named
    framework qualifies or not. *)
Definition detector_world (found : list framework) (qualifies : bool) : world :=
  {| w_NETLIFYDEVLOG := w_NETLIFYDEVLOG stub_world;
     w_NETLIFYDEVWARN := w_NETLIFYDEVWARN stub_world;
     w_chalk_yellow := w_chalk_yellow stub_world;
     w_path_dirname := w_path_dirname stub_world;
     w_path_relative := w_path_relative stub_world;
     w_invalid_arg_type := w_invalid_arg_type stub_world;
     w_fuzzy_filter := w_fuzzy_filter stub_world;
     w_process_cwd := w_process_cwd stub_world;
     w_listFrameworks := fun _ _ => found;
     w_hasFramework := fun _ _ _ => qualifies;
     w_getFramework := w_getFramework stub_world;
     w_prompt := w_prompt stub_world;
     w_getPort := w_getPort stub_world;
     w_readFile := w_readFile stub_world |}.

(** A candidate without watch commands. *)
Definition hugo : framework :=
  {| fw_name := "hugo";
     fw_command := VStr "hugo";
     fw_commands := None;
     fw_dev_commands := ["hugo server -w"];
     fw_dev_port := vint 1313;
     fw_build_directory := VStr "public";
     fw_staticAssetsDirectory := VUndef;
     fw_env := VObj [];
     fw_watch_commands := [] |}.

(** Two descriptors as the detector describes them: commands under
    [dev.commands], no top-level [command]. *)
Definition gatsby_descriptor : framework :=
  {| fw_name := "gatsby";
     fw_command := VUndef;
     fw_commands := None;
     fw_dev_commands := ["gatsby develop"];
     fw_dev_port := vint 8000;
     fw_build_directory := VStr "public";
     fw_staticAssetsDirectory := VStr "static";
     fw_env := VObj [("GATSBY_LOGGER", VStr "yaml")];
     fw_watch_commands := [["develop"]] |}.

Definition create_react_app_descriptor : framework :=
  {| fw_name := "create-react-app";
     fw_command := VUndef;
     fw_commands := None;
     fw_dev_commands := ["react-scripts start"];
     fw_dev_port := vint 3000;
     fw_build_directory := VStr "build";
     fw_staticAssetsDirectory := VUndef;
     fw_env := VObj [];
     fw_watch_commands := [["start"]] |}.

Definition two_descriptors_world : world :=
  detector_world [gatsby_descriptor; create_react_app_descriptor] true.

Definition auto_only : obj := [ ("framework", VStr "#auto") ].

Definition custom_full : obj :=
  [ ("framework", VStr "#custom"); ("command", VStr "npm start");
    ("targetPort", vint 3000); ("port", vint 9000); ("publish", VStr "build");
    ("functions", VStr "functions"); ("functionsPort", vint 34567);
    ("https", VObj [("keyFile", VStr "k.pem"); ("certFile", VStr "cert.pem")]) ].

Definition custom_same_ports : obj :=
  [ ("framework", VStr "#custom"); ("command", VStr "npm start");
    ("targetPort", vint 3000); ("port", vint 3000) ].

Definition named_gatsby : obj := [ ("framework", VStr "gatsby") ].

Definition static_with_command : obj :=
  [ ("framework", VStr "#static"); ("command", VStr "npm start") ].

Definition static_with_publish : obj :=
  [ ("framework", VStr "#static"); ("publish", VStr "dist") ].

Definition tls_key_missing : obj :=
  [ ("keyFile", VStr "c.pem"); ("certFile", VStr "k.pem") ].

(* ================================================================== *)
(** ** Basic facts about objects, values and computations *)

Lemma get_set_same (o : obj) (k : string) (v : value) :
  get_prop (set_prop o k v) k = v.
Proof.
  induction o as [| [k' v'] rest IH]; simpl.
  - now rewrite String.eqb_refl.
  - destruct (String.eqb k k') eqn:E; simpl; rewrite E; auto.
Qed.

Lemma get_set_other (o : obj) (k k' : string) (v : value) :
  String.eqb k' k = false ->
  get_prop (set_prop o k v) k' = get_prop o k'.
Proof.
  intros Hne. induction o as [| [k0 v0] rest IH]; simpl.
  - now rewrite Hne.
  - destruct (String.eqb k k0) eqn:E; simpl.
    + apply String.eqb_eq in E. subst k0. now rewrite Hne.
    + now rewrite IH.
Qed.

Lemma has_set_other (o : obj) (k k' : string) (v : value) :
  String.eqb k' k = false ->
  has_prop (set_prop o k v) k' = has_prop o k'.
Proof.
  intros Hne. induction o as [| [k0 v0] rest IH]; simpl.
  - now rewrite Hne.
  - destruct (String.eqb k k0) eqn:E; simpl.
    + reflexivity.
    + now rewrite IH.
Qed.

Lemma has_set_same (o : obj) (k : string) (v : value) :
  has_prop (set_prop o k v) k = true.
Proof.
  induction o as [| [k' v'] rest IH]; simpl.
  - now rewrite String.eqb_refl.
  - destruct (String.eqb k k') eqn:E; simpl; rewrite E; auto.
Qed.

Lemma truthy_js_and (a b : value) :
  truthy (js_and a b) = truthy a && truthy b.
Proof. unfold js_and. destruct (truthy a) eqn:E; simpl; auto. Qed.

Lemma js_or_truthy (a b : value) : truthy a = true -> js_or a b = a.
Proof. unfold js_or. now intros ->. Qed.

Lemma js_or_falsy (a b : value) : truthy a = false -> js_or a b = b.
Proof. unfold js_or. now intros ->. Qed.

Lemma number_eq_eq (a b : number) : number_eq a b = true -> a = b.
Proof.
  destruct a, b; simpl; try discriminate; intros H.
  - apply Z.eqb_eq in H. now subst.
  - apply String.eqb_eq in H. now subst.
  - apply Bool.eqb_prop in H. now subst.
Qed.

(** [===] on a number and anything: equal operands. *)
Lemma strict_eq_num (v : value) (n : number) :
  strict_eq v (VNum n) = true -> v = VNum n.
Proof.
  destruct v; simpl; try discriminate.
  intros H. apply number_eq_eq in H. now subst.
Qed.

Lemma is_str_eq (v : value) (s : string) : is_str v s = true -> v = VStr s.
Proof.
  unfold is_str. destruct v; simpl; try discriminate.
  intros H. apply String.eqb_eq in H. now subst.
Qed.

Lemma bind_ok_inv {A B} (m : M A) (f : A -> M B) (t t' : trace) (b : B) :
  bind m f t = (Ok b, t') ->
  exists a t1, m t = (Ok a, t1) /\ f a t1 = (Ok b, t').
Proof.
  unfold bind. destruct (m t) as [[a | e] t1]; intros H.
  - now exists a, t1.
  - discriminate.
Qed.

Lemma bind_ok {A B} (m : M A) (f : A -> M B) (t t1 : trace) (a : A) :
  m t = (Ok a, t1) -> bind m f t = f a t1.
Proof. unfold bind. now intros ->. Qed.

Lemma bind_throw {A B} (m : M A) (f : A -> M B) (t t1 : trace) (e : js_error) :
  m t = (Throw e, t1) -> bind m f t = (Throw e, t1).
Proof. unfold bind. now intros ->. Qed.

Lemma bind_assoc {A B C} (m : M A) (f : A -> M B) (g : B -> M C) (t : trace) :
  bind (bind m f) g t = bind m (fun a => bind (f a) g) t.
Proof. unfold bind. destruct (m t) as [[a | e] t1]; reflexivity. Qed.

Lemma throw_if_ok_inv (c : bool) (e : js_error) (t t' : trace) (u : unit) :
  throw_if c e t = (Ok u, t') -> c = false /\ t' = t.
Proof.
  unfold throw_if, throw, ret. destruct c; intros H; inversion H; auto.
Qed.

Lemma throw_if_false (c : bool) (e : js_error) (t : trace) :
  c = false -> throw_if c e t = (Ok tt, t).
Proof. now intros ->. Qed.

Lemma throw_if_true (c : bool) (e : js_error) (t : trace) :
  c = true -> throw_if c e t = (Throw e, t).
Proof. now intros ->. Qed.

(** Peel the successful steps of a computation known to succeed. *)
Ltac inv_ok :=
  repeat match goal with
    | H : bind _ _ _ = (Ok _, _) |- _ =>
        let a := fresh "a" in
        let t1 := fresh "t" in
        let H1 := fresh "Hstep" in
        let H2 := fresh "Hrest" in
        apply bind_ok_inv in H; destruct H as (a & t1 & H1 & H2)
    | H : throw_if _ _ _ = (Ok _, _) |- _ =>
        let Hc := fresh "Hcond" in
        apply throw_if_ok_inv in H; destruct H as [Hc ?]; subst
    | H : ret _ _ = (Ok _, _) |- _ =>
        unfold ret in H; inversion H; clear H; subst
    | H : throw _ _ = (Ok _, _) |- _ =>
        unfold throw in H; discriminate H
    end.

(** *** Computations whose outcome does not depend on the past *)

Lemma hi_ret {A} (a : A) : history_independent (ret a).
Proof. now intros t1 t2. Qed.

Lemma hi_throw {A} (e : js_error) : history_independent (@throw A e).
Proof. now intros t1 t2. Qed.

Lemma hi_throw_if (c : bool) (e : js_error) : history_independent (throw_if c e).
Proof. destruct c; [apply hi_throw | apply hi_ret]. Qed.

Lemma hi_template (v : value) : history_independent (template v).
Proof. unfold template. destruct (stringifies v); [ apply hi_ret | apply hi_throw ]. Qed.

Lemma hi_emit (e : event) : history_independent (emit e).
Proof. now intros t1 t2. Qed.

Lemma hi_bind {A B} (m : M A) (f : A -> M B) :
  history_independent m ->
  (forall a, history_independent (f a)) ->
  history_independent (bind m f).
Proof.
  intros Hm Hf t1 t2. unfold bind.
  specialize (Hm t1 t2).
  destruct (m t1) as [[a1 | e1] t1'], (m t2) as [[a2 | e2] t2']; simpl in Hm;
    try discriminate.
  - inversion Hm; subst. apply Hf.
  - now inversion Hm.
Qed.


(* ================================================================== *)
(** ** Determinism *)

Section Determinism.

Variable w : world.
Hypothesis Hdet : deterministic w.

Lemma hi_getPort (v : value) : history_independent (getPort w v).
Proof. intros t1 t2. unfold getPort. simpl. now rewrite (det_getPort w Hdet t1 t2). Qed.

Lemma hi_listFrameworks (dir : string) : history_independent (listFrameworks w dir).
Proof.
  intros t1 t2. unfold listFrameworks. simpl.
  now rewrite (det_listFrameworks w Hdet t1 t2).
Qed.

Lemma hi_hasFramework (id dir : string) : history_independent (hasFramework w id dir).
Proof.
  intros t1 t2. unfold hasFramework. simpl.
  now rewrite (det_hasFramework w Hdet t1 t2).
Qed.

Lemma hi_getFramework (id dir : string) : history_independent (getFramework w id dir).
Proof.
  intros t1 t2. unfold getFramework. simpl.
  now rewrite (det_getFramework w Hdet t1 t2).
Qed.

Lemma hi_prompt (msg : string) (cs : list choice) :
  history_independent (inquirer_prompt w msg cs).
Proof.
  intros t1 t2. unfold inquirer_prompt. simpl.
  now rewrite (det_prompt w Hdet t1 t2).
Qed.

Lemma hi_readFile (f : string) : history_independent (readFileAsyncCatchError w f).
Proof.
  intros t1 t2. unfold readFileAsyncCatchError. simpl.
  now rewrite (det_readFile w Hdet t1 t2).
Qed.

Lemma hi_cwd : history_independent (process_cwd w).
Proof. intros t1 t2. unfold process_cwd. simpl. now rewrite (det_cwd w Hdet t1 t2). Qed.

Ltac hi_step :=
  first
    [ apply hi_ret | apply hi_throw | apply hi_throw_if | apply hi_emit
    | apply hi_template | apply hi_getPort | apply hi_listFrameworks | apply hi_hasFramework
    | apply hi_getFramework | apply hi_prompt | apply hi_readFile | apply hi_cwd
    | apply hi_bind; [ | intro ]
    | match goal with
      | |- history_independent (if ?c then _ else _) => destruct c
      | |- history_independent (match ?x with _ => _ end) => destruct x
      end ].

Ltac hi := unfold log; repeat hi_step.

Lemma hi_path_relative (from : string) (to : value) :
  history_independent (path_relative w from to).
Proof. unfold path_relative. hi. Qed.

Lemma hi_readHttpsSettings (options : value) :
  history_independent (readHttpsSettings w options).
Proof. unfold readHttpsSettings. hi. Qed.

Lemma hi_detectFrameworkSettings (dir : string) :
  history_independent (detectFrameworkSettings w dir).
Proof. unfold detectFrameworkSettings. hi. Qed.

Lemma hi_validateCustomSettings (devConfig : obj) :
  history_independent (validateCustomSettings devConfig).
Proof. unfold validateCustomSettings. hi. Qed.

Lemma hi_getStaticServerSettings (dist port : value) (dir : string) :
  history_independent (getStaticServerSettings w dist port dir).
Proof.
  unfold getStaticServerSettings.
  apply hi_bind; [ hi | intro ].
  apply hi_bind; [ apply hi_path_relative | intro ].
  hi.
Qed.

Lemma hi_settingsOrigin (devConfig flags : obj) (dir : string) :
  history_independent (settingsOrigin w devConfig flags dir).
Proof.
  unfold settingsOrigin.
  apply hi_bind; [ apply hi_throw_if | intro ].
  destruct (truthy (get_prop flags "dir")).
  { apply hi_bind; [ apply hi_emit | intro ]. apply hi_getStaticServerSettings. }
  match goal with |- history_independent (if ?c then _ else _) => destruct c end.
  { apply hi_detectFrameworkSettings. }
  match goal with |- history_independent (if ?c then _ else _) => destruct c end.
  { apply hi_bind; [ apply hi_validateCustomSettings | intro ]. apply hi_ret. }
  hi.
Qed.

Lemma hi_applyOverrides (devConfig flags : obj) (dir : string) (settings : obj) :
  history_independent (applyOverrides w devConfig flags dir settings).
Proof.
  unfold applyOverrides.
  apply hi_bind; [ hi | intro ].
  apply hi_bind; [ hi | intro ].
  apply hi_bind; [ hi | intro ].
  apply hi_bind.
  { match goal with |- history_independent (if ?c then _ else _) => destruct c end.
    - apply hi_bind; [ apply hi_emit | intro ]. apply hi_getStaticServerSettings.
    - apply hi_ret. }
  intro. hi.
Qed.

Lemma hi_acquireProxyPort (devConfig settings : obj) :
  history_independent (acquireProxyPort w devConfig settings).
Proof. unfold acquireProxyPort. hi. Qed.

Lemma hi_attachFunctions (devConfig settings : obj) :
  history_independent (attachFunctions w devConfig settings).
Proof. unfold attachFunctions. hi. Qed.

Lemma hi_attachHttps (devConfig settings : obj) :
  history_independent (attachHttps w devConfig settings).
Proof.
  unfold attachHttps.
  destruct (truthy (get_prop devConfig "https")); [ | apply hi_ret ].
  apply hi_bind; [ apply hi_readHttpsSettings | intro; apply hi_ret ].
Qed.

(** C9.  Determinism of the resolution: with collaborators that answer
    by their arguments alone (such as a port prober that always returns
    the preferred port), two calls of [serverSettings] on the same
    [devConfig], [flags] and [projectDir] end in the same outcome, the
    same settings record or the same error, whatever happened before
    each call. *)
Theorem serverSettings_deterministic (devConfig flags : obj) (projectDir : string)
    (before1 before2 : trace) :
  fst (serverSettings w devConfig flags projectDir before1)
  = fst (serverSettings w devConfig flags projectDir before2).
Proof.
  revert before1 before2. change (history_independent (serverSettings w devConfig flags projectDir)).
  unfold serverSettings.
  apply hi_bind; [ apply hi_settingsOrigin | intro ].
  apply hi_bind; [ apply hi_applyOverrides | intro ].
  apply hi_bind; [ apply hi_acquireProxyPort | intro ].
  apply hi_bind; [ apply hi_attachFunctions | intro ].
  apply hi_attachHttps.
Qed.

End Determinism.

(* ================================================================== *)
(** ** The proxy port *)

Section ProxyPort.

Variable w : world.

(** What a draft that passed lines 137-191 guarantees. *)
Lemma applyOverrides_ok (devConfig flags : obj) (projectDir : string)
    (settings settings' : obj) (t t' : trace) :
  applyOverrides w devConfig flags projectDir settings t = (Ok settings', t') ->
  truthy (get_prop settings' "frameworkPort") = true
  /\ (truthy (get_prop devConfig "port") = true ->
      is_number (get_prop devConfig "port") = true
      /\ strict_eq (get_prop devConfig "port") (get_prop settings' "frameworkPort") = false).
Proof.
  unfold applyOverrides. intros H. inv_ok.
  split.
  - now apply negb_false_iff.
  - intros Hp. rewrite Hp in *. simpl in *. split.
    + now apply negb_false_iff.
    + assumption.
Qed.

(** Lines 192-196, spelled out. *)
Lemma acquireProxyPort_eq (devConfig settings : obj) (t : trace) :
  let triedPort := js_or (get_prop devConfig "port") (vint DEFAULT_PORT) in
  let acquired := w_getPort w t triedPort in
  acquireProxyPort w devConfig settings t
  = if negb (strict_eq triedPort (vint acquired)) && truthy (get_prop devConfig "port")
    then (Throw (JsError ("Could not acquire required " ++ q "port" ++ ": "
                          ++ ToString triedPort)),
          (t ++ [EvGetPort triedPort acquired])%list)
    else (Ok (set_prop settings "port" (vint acquired)),
          (t ++ [EvGetPort triedPort acquired])%list).
Proof.
  intros triedPort acquired. unfold acquireProxyPort, bind, getPort.
  fold triedPort. fold acquired. rewrite get_set_same.
  destruct (negb (strict_eq triedPort (vint acquired)) && truthy (get_prop devConfig "port"));
    reflexivity.
Qed.

(** Lines 198-203 never fail and leave the two ports alone. *)
Lemma attachFunctions_total (devConfig settings : obj) (t : trace) :
  exists settings' t',
    attachFunctions w devConfig settings t = (Ok settings', t')
    /\ get_prop settings' "port" = get_prop settings "port"
    /\ get_prop settings' "frameworkPort" = get_prop settings "frameworkPort".
Proof.
  unfold attachFunctions.
  match goal with |- context [if ?c then _ else _] => destruct c end.
  - unfold bind, getPort, ret. eexists. eexists. split; [ reflexivity | ].
    rewrite !get_set_other by reflexivity. auto.
  - unfold ret. eexists. eexists. split; [ reflexivity | ].
    rewrite !get_set_other by reflexivity. auto.
Qed.

Lemma attachHttps_ok (devConfig settings settings' : obj) (t t' : trace) :
  attachHttps w devConfig settings t = (Ok settings', t') ->
  get_prop settings' "port" = get_prop settings "port"
  /\ get_prop settings' "frameworkPort" = get_prop settings "frameworkPort".
Proof.
  unfold attachHttps. destruct (truthy (get_prop devConfig "https")); intros H.
  - inv_ok. rewrite !get_set_other by reflexivity. auto.
  - inv_ok. auto.
Qed.

(** The outcome of the whole resolution, once the draft has passed
    lines 108-191. *)
Lemma serverSettings_after_draft (devConfig flags : obj) (projectDir : string)
    (draft : obj) (t t1 : trace) :
  draftBeforePort w devConfig flags projectDir t = (Ok draft, t1) ->
  serverSettings w devConfig flags projectDir t
  = (settings <- acquireProxyPort w devConfig draft ;;
     settings <- attachFunctions w devConfig settings ;;
     attachHttps w devConfig settings) t1.
Proof.
  unfold draftBeforePort, serverSettings. intros H.
  apply bind_ok_inv in H. destruct H as (s0 & t0 & H0 & H1).
  rewrite (bind_ok _ _ _ _ _ H0). now rewrite (bind_ok _ _ _ _ _ H1).
Qed.

Lemma serverSettings_ok_inv (devConfig flags : obj) (projectDir : string)
    (settings : obj) (t t' : trace) :
  serverSettings w devConfig flags projectDir t = (Ok settings, t') ->
  exists draft t1 withPort t2,
    draftBeforePort w devConfig flags projectDir t = (Ok draft, t1)
    /\ acquireProxyPort w devConfig draft t1 = (Ok withPort, t2)
    /\ get_prop settings "port" = get_prop withPort "port"
    /\ get_prop settings "frameworkPort" = get_prop withPort "frameworkPort".
Proof.
  unfold serverSettings. intros H.
  apply bind_ok_inv in H. destruct H as (s0 & t0 & H0 & H).
  apply bind_ok_inv in H. destruct H as (s1 & t1 & H1 & H).
  apply bind_ok_inv in H. destruct H as (s2 & t2 & H2 & H).
  apply bind_ok_inv in H. destruct H as (s3 & t3 & H3 & H).
  exists s1, t1, s2, t2. split.
  { unfold draftBeforePort. now rewrite (bind_ok _ _ _ _ _ H0). }
  split; [ assumption | ].
  destruct (attachFunctions_total devConfig s2 t2) as (s3' & t3' & E & Hp & Hf).
  rewrite H3 in E. inversion E; subst s3' t3'.
  apply attachHttps_ok in H. destruct H as [Hp' Hf'].
  split; congruence.
Qed.

(** C1 (amended).  Whenever [serverSettings] returns a record, its
    [port] is the integer the prober returned for the preference
    [devConfig.port || 8888], hence positive as soon as the prober only
    returns positive ports, and [frameworkPort] is set.  When
    [devConfig.port] is supplied, [port] equals it and is strictly
    different from [frameworkPort]. *)
Theorem proxy_port_of_result (devConfig flags : obj) (projectDir : string)
    (settings : obj) (t t' : trace) :
  serverSettings w devConfig flags projectDir t = (Ok settings, t') ->
  exists (acquired : Z) (t1 : trace),
    acquired = w_getPort w t1 (js_or (get_prop devConfig "port") (vint DEFAULT_PORT))
    /\ get_prop settings "port" = vint acquired
    /\ ((forall t0 v, (0 < w_getPort w t0 v)%Z) -> (0 < acquired)%Z)
    /\ truthy (get_prop settings "frameworkPort") = true
    /\ (truthy (get_prop devConfig "port") = true ->
        get_prop devConfig "port" = vint acquired
        /\ strict_eq (get_prop settings "port") (get_prop settings "frameworkPort") = false).
Proof.
  intros H.
  apply serverSettings_ok_inv in H.
  destruct H as (draft & t1 & withPort & t2 & Hdraft & Hport & Ep & Ef).
  unfold draftBeforePort in Hdraft.
  apply bind_ok_inv in Hdraft. destruct Hdraft as (s0 & t0 & _ & Hover).
  apply applyOverrides_ok in Hover. destruct Hover as [Hfp Hpin].
  rewrite acquireProxyPort_eq in Hport. cbv zeta in Hport.
  set (triedPort := js_or (get_prop devConfig "port") (vint DEFAULT_PORT)) in *.
  set (acquired := w_getPort w t1 triedPort) in *.
  destruct (negb (strict_eq triedPort (vint acquired)) && truthy (get_prop devConfig "port"))
    eqn:Hmatch; [ discriminate | ].
  inversion Hport; subst withPort t2.
  rewrite get_set_same in Ep.
  rewrite get_set_other in Ef by reflexivity.
  exists acquired, t1.
  split; [ reflexivity | ].
  split; [ assumption | ].
  split; [ intros Hpos; apply Hpos | ].
  split; [ now rewrite Ef | ].
  intros Hp. destruct (Hpin Hp) as [_ Hdiff].
  rewrite Hp, andb_true_r in Hmatch. apply negb_false_iff in Hmatch.
  unfold triedPort in Hmatch. rewrite (js_or_truthy _ _ Hp) in Hmatch.
  apply strict_eq_num in Hmatch.
  split; [ assumption | ].
  rewrite Ep, Ef. unfold vint. rewrite <- Hmatch. assumption.
Qed.

(** C2.  Once the draft has passed lines 108-191: if [devConfig.port]
    is supplied and the prober returns something else, the resolution
    fails with [Could not acquire required "port"]; if [devConfig.port]
    is absent, the port the prober returns for 8888 is taken as it is,
    and it is the [port] of any record that is returned. *)
Theorem explicit_port_is_exact_default_is_not (devConfig flags : obj)
    (projectDir : string) (draft : obj) (t t1 : trace) :
  draftBeforePort w devConfig flags projectDir t = (Ok draft, t1) ->
  (truthy (get_prop devConfig "port") = true ->
   vint (w_getPort w t1 (get_prop devConfig "port")) <> get_prop devConfig "port" ->
   serverSettings w devConfig flags projectDir t
   = (Throw (JsError ("Could not acquire required " ++ q "port" ++ ": "
                      ++ ToString (get_prop devConfig "port"))),
      (t1 ++ [EvGetPort (get_prop devConfig "port")
                (w_getPort w t1 (get_prop devConfig "port"))])%list))
  /\ (truthy (get_prop devConfig "port") = false ->
      let acquired := w_getPort w t1 (vint DEFAULT_PORT) in
      acquireProxyPort w devConfig draft t1
      = (Ok (set_prop draft "port" (vint acquired)),
         (t1 ++ [EvGetPort (vint DEFAULT_PORT) acquired])%list)
      /\ (forall settings t',
             serverSettings w devConfig flags projectDir t = (Ok settings, t') ->
             get_prop settings "port" = vint acquired)).
Proof.
  intros Hdraft. split.
  - intros Hp Hdiff.
    rewrite (serverSettings_after_draft _ _ _ _ _ _ Hdraft).
    apply bind_throw. rewrite acquireProxyPort_eq. cbv zeta.
    rewrite (js_or_truthy _ _ Hp), Hp, andb_true_r.
    destruct (strict_eq (get_prop devConfig "port")
                (vint (w_getPort w t1 (get_prop devConfig "port")))) eqn:E.
    + apply strict_eq_num in E. unfold vint in Hdiff. congruence.
    + reflexivity.
  - intros Hp acquired.
    assert (Hacq : acquireProxyPort w devConfig draft t1
                   = (Ok (set_prop draft "port" (vint acquired)),
                      (t1 ++ [EvGetPort (vint DEFAULT_PORT) acquired])%list)).
    { rewrite acquireProxyPort_eq. cbv zeta.
      rewrite (js_or_falsy _ _ Hp), Hp, andb_false_r. reflexivity. }
    split; [ exact Hacq | ].
    intros settings t' Hok.
    rewrite (serverSettings_after_draft _ _ _ _ _ _ Hdraft) in Hok.
    rewrite (bind_ok _ _ _ _ _ Hacq) in Hok.
    apply bind_ok_inv in Hok. destruct Hok as (s3 & t3 & H3 & Hhttps).
    destruct (attachFunctions_total devConfig (set_prop draft "port" (vint acquired))
                (t1 ++ [EvGetPort (vint DEFAULT_PORT) acquired])%list)
      as (s3' & t3' & E & Hport & _).
    rewrite H3 in E. inversion E; subst s3' t3'.
    apply attachHttps_ok in Hhttps. destruct Hhttps as [Hport' _].
    rewrite Hport', Hport. apply get_set_same.
Qed.

End ProxyPort.

(* ================================================================== *)
(** ** The origin of the settings and the overrides *)

Section Origin.

Variable w : world.

(** Line 137-144 on a command that can be written into the log. *)
Lemma command_override_runs (devConfig settings : obj) (t : trace) :
  stringifies (get_prop devConfig "command") = true ->
  exists t1,
    (if negb (truthy (get_prop settings "noCmd")) && truthy (get_prop devConfig "command")
     then
       command <- template (get_prop devConfig "command") ;;
       log (w_NETLIFYDEVLOG w ++ " Overriding " ++ w_chalk_yellow w "command"
            ++ " with setting derived from netlify.toml [dev] block: "
            ++ command) ;;
       ret (set_prop settings "command" (get_prop devConfig "command"))
     else ret settings) t
    = (Ok (if negb (truthy (get_prop settings "noCmd"))
              && truthy (get_prop devConfig "command")
           then set_prop settings "command" (get_prop devConfig "command")
           else settings), t1)
    /\ t1 = (if negb (truthy (get_prop settings "noCmd"))
                && truthy (get_prop devConfig "command")
             then (t ++ [EvLog (w_NETLIFYDEVLOG w ++ " Overriding "
                                ++ w_chalk_yellow w "command"
                                ++ " with setting derived from netlify.toml [dev] block: "
                                ++ ToString (get_prop devConfig "command"))])%list
             else t).
Proof.
  intros Hcmd.
  destruct (negb (truthy (get_prop settings "noCmd"))
            && truthy (get_prop devConfig "command")).
  - unfold template. rewrite Hcmd. eexists. split; reflexivity.
  - eexists. split; reflexivity.
Qed.

(** C3.  When [framework] is a string, there is no [dir] flag, and
    [framework] is ["#custom"] or both [command] and [targetPort] are
    supplied, the custom branch is taken.  There, with [framework = "#custom"] and not
    both [command] and [targetPort], the resolution fails with the
    error that they are required; with both of them and another
    [framework], it fails with the error that [framework] must be
    ["#custom"]. *)
Theorem custom_branch_is_validated (devConfig flags : obj) (projectDir : string)
    (t : trace) :
  is_string (get_prop devConfig "framework") = true ->
  truthy (get_prop flags "dir") = false ->
  (is_str (get_prop devConfig "framework") "#custom" = true
   \/ truthy (get_prop devConfig "command") && truthy (get_prop devConfig "targetPort") = true) ->
  settingsOrigin w devConfig flags projectDir t
  = (validateCustomSettings devConfig ;; ret [ ("framework", VStr "#custom") ]) t
  /\
  (is_str (get_prop devConfig "framework") "#custom" = true ->
   truthy (get_prop devConfig "command") && truthy (get_prop devConfig "targetPort") = false ->
   serverSettings w devConfig flags projectDir t
   = (Throw (JsError (q "command" ++ " and " ++ q "targetPort"
                      ++ " properties are required when " ++ q "framework"
                      ++ " is set to " ++ q "#custom")), t))
  /\ (is_str (get_prop devConfig "framework") "#custom" = false ->
      truthy (get_prop devConfig "command") && truthy (get_prop devConfig "targetPort") = true ->
      serverSettings w devConfig flags projectDir t
      = (Throw (JsError (q "framework" ++ " option must be set to " ++ q "#custom"
                         ++ " when specifying both " ++ q "command" ++ " and "
                         ++ q "targetPort" ++ " options")), t)).
Proof.
  intros Hstr Hdir Htaken. split; [ | split ].
  - unfold settingsOrigin.
    rewrite (bind_ok _ _ t t tt) by (apply throw_if_false; now rewrite Hstr).
    rewrite Hdir, truthy_js_and.
    destruct Htaken as [Hcustom | Hboth].
    + pose proof (is_str_eq _ _ Hcustom) as Hfw. rewrite Hfw. reflexivity.
    + rewrite Hboth, andb_false_r, orb_true_r. reflexivity.
  - intros Hcustom Hboth.
    unfold serverSettings. apply bind_throw. unfold settingsOrigin.
    rewrite (bind_ok _ _ t t tt) by (apply throw_if_false; now rewrite Hstr).
    rewrite Hdir, truthy_js_and, Hboth.
    pose proof (is_str_eq _ _ Hcustom) as Hfw. rewrite Hfw. simpl.
    apply bind_throw. unfold validateCustomSettings.
    apply bind_throw. apply throw_if_true.
    now rewrite Hfw, truthy_js_and, Hboth.
  - intros Hother Hboth.
    unfold serverSettings. apply bind_throw. unfold settingsOrigin.
    rewrite (bind_ok _ _ t t tt) by (apply throw_if_false; now rewrite Hstr).
    rewrite Hdir, truthy_js_and, Hboth, Hother, andb_false_r. simpl.
    apply bind_throw. unfold validateCustomSettings.
    rewrite (bind_ok _ _ t t tt) by (apply throw_if_false; now rewrite Hother).
    apply throw_if_true. rewrite Hother. simpl.
    exact Hboth.
Qed.

(** With a [dir] flag that is a path, the origin is the static server:
    a draft without [command]. *)
Lemma settingsOrigin_dir_flag (devConfig flags : obj) (projectDir dir : string)
    (t : trace) :
  is_string (get_prop devConfig "framework") = true ->
  get_prop flags "dir" = VStr dir ->
  dir <> EmptyString ->
  exists t1 port,
    settingsOrigin w devConfig flags projectDir t
    = (Ok [ ("noCmd", VBool true); ("frameworkPort", vint port); ("dist", VStr dir) ], t1)
    /\ port = w_getPort w
                (t ++ [EvLog (w_NETLIFYDEVWARN w
                              ++ " Using simple static server because --dir flag was specified");
                       EvLog (w_NETLIFYDEVWARN w ++ " Running static server from "
                              ++ q (w_path_relative w (w_path_dirname w projectDir) dir))])%list
                (js_or (get_prop flags "staticServerPort") (vint DEFAULT_STATIC_PORT)).
Proof.
  intros Hstr Hdir Hne.
  assert (Htruthy : truthy (VStr dir) = true).
  { simpl. apply negb_true_iff. now apply String.eqb_neq. }
  unfold settingsOrigin.
  rewrite (bind_ok _ _ t t tt) by (apply throw_if_false; now rewrite Hstr).
  rewrite Hdir, Htruthy.
  unfold getStaticServerSettings. rewrite Htruthy.
  unfold bind, log, emit, ret, path_relative, getPort. simpl.
  rewrite <- !app_assoc. simpl.
  eexists. eexists. split; reflexivity.
Qed.

(** C4 (what the code does).  The check of line 163 is never reached
    with a [dir] flag: for every input with a [dir] flag, a string
    [framework] and a numeric [targetPort] different from [port], the
    resolution stops at line 159 with the error about the missing
    command, not with the one about [targetPort] and the [dir] flag. *)
Theorem targetPort_with_dir_flag_lacks_command (devConfig flags : obj)
    (projectDir dir : string) (t : trace) :
  is_string (get_prop devConfig "framework") = true ->
  get_prop flags "dir" = VStr dir ->
  dir <> EmptyString ->
  truthy (get_prop devConfig "targetPort") = true ->
  is_number (get_prop devConfig "targetPort") = true ->
  strict_eq (get_prop devConfig "targetPort") (get_prop devConfig "port") = false ->
  exists t',
    serverSettings w devConfig flags projectDir t
    = (Throw (JsError ("No " ++ q "command" ++ " specified or detected. The "
                       ++ q "command" ++ " option is required to use "
                       ++ q "targetPort" ++ " option.")), t').
Proof.
  intros Hstr Hdir Hne Htp Hnum Hdiff.
  destruct (settingsOrigin_dir_flag devConfig flags projectDir dir t Hstr Hdir Hne)
    as (t1 & port & Horigin & _).
  exists t1.
  unfold serverSettings. rewrite (bind_ok _ _ _ _ _ Horigin).
  apply bind_throw. unfold applyOverrides. simpl.
  unfold bind at 1. unfold ret at 1.
  apply bind_throw. rewrite Htp, Hnum, Hdiff. simpl.
  reflexivity.
Qed.

(** C5 (amended).  Once the origin of the settings is resolved, and
    when the configured [command], if there is one, can be written into
    the log (it is not an object that hides [toString]), a supplied
    [targetPort] that is not of type number makes the resolution fail
    with a plain [Error] saying that [targetPort] must be an integer. *)
Theorem non_number_targetPort_is_rejected (devConfig flags : obj)
    (projectDir : string) (draft : obj) (t t1 : trace) :
  settingsOrigin w devConfig flags projectDir t = (Ok draft, t1) ->
  stringifies (get_prop devConfig "command") = true ->
  truthy (get_prop devConfig "targetPort") = true ->
  is_number (get_prop devConfig "targetPort") = false ->
  exists t',
    serverSettings w devConfig flags projectDir t
    = (Throw (JsError ("Invalid " ++ q "targetPort" ++ " option specified. The value of "
                       ++ q "targetPort" ++ " option must be an integer")), t').
Proof.
  intros Horigin Hcmd Htp Hnum.
  unfold serverSettings. rewrite (bind_ok _ _ _ _ _ Horigin).
  unfold applyOverrides.
  destruct (command_override_runs devConfig draft t1 Hcmd) as (t2 & Hrun & _).
  eexists. apply bind_throw. rewrite (bind_ok _ _ _ _ _ Hrun).
  apply bind_throw. rewrite Htp, Hnum. simpl. reflexivity.
Qed.

(** C7.  With [flags.dir = "./public"], a configuration that holds
    nothing but its [framework], and a prober that returns the port it
    is asked for: the record has [noCmd = true], [dist = "./public"],
    [frameworkPort = 3999] (the prober's answer for the default static
    port) and no [command] property. *)
Theorem dir_flag_alone_serves_statically (framework projectDir : string) (t : trace) :
  returns_preferred w ->
  let result :=
    [ ("noCmd", VBool true); ("frameworkPort", vint DEFAULT_STATIC_PORT);
      ("dist", VStr "./public"); ("port", vint DEFAULT_PORT);
      ("jwtSecret", VStr "secret");
      ("jwtRolePath", VStr "app_metadata.authorization.roles");
      ("functions", VUndef) ] in
  fst (serverSettings w [("framework", VStr framework)] [("dir", VStr "./public")]
         projectDir t) = Ok result
  /\ has_prop result "command" = false
  /\ (forall asked,
         get_prop result "frameworkPort"
         = vint (w_getPort w asked (vint DEFAULT_STATIC_PORT))).
Proof.
  intros Hstub result. split; [ | split ].
  - destruct (settingsOrigin_dir_flag [("framework", VStr framework)]
                [("dir", VStr "./public")] projectDir "./public" t)
      as (t1 & port & Horigin & Hport); try reflexivity; try discriminate.
    simpl in Hport. unfold js_or in Hport. simpl in Hport.
    rewrite Hstub in Hport. subst port.
    unfold serverSettings. rewrite (bind_ok _ _ _ _ _ Horigin).
    unfold applyOverrides, acquireProxyPort, attachFunctions, attachHttps.
    unfold bind, ret, throw_if, getPort. simpl.
    unfold js_or. simpl. rewrite Hstub. simpl. reflexivity.
  - reflexivity.
  - intros asked. rewrite Hstub. reflexivity.
Qed.

End Origin.

(* ================================================================== *)
(** ** The TLS material *)

Section Https.

Variable w : world.

Lemma serverSettings_before_https (devConfig flags : obj) (projectDir : string)
    (t : trace) :
  serverSettings w devConfig flags projectDir t
  = bind (draftBeforeHttps w devConfig flags projectDir) (attachHttps w devConfig) t.
Proof.
  unfold serverSettings, draftBeforeHttps, draftBeforePort, bind.
  destruct (settingsOrigin w devConfig flags projectDir t) as [[s0 | e0] t0];
    [ | reflexivity ].
  destruct (applyOverrides w devConfig flags projectDir s0 t0) as [[s1 | e1] t1];
    [ | reflexivity ].
  destruct (acquireProxyPort w devConfig s1 t1) as [[s2 | e2] t2]; [ | reflexivity ].
  destruct (attachFunctions w devConfig s2 t2) as [[s3 | e3] t3]; reflexivity.
Qed.

(** Reading a key that is there and a certificate that is not. *)
Lemma readHttpsSettings_cert_fails (props : obj) (keyFile certFile key message : string)
    (t : trace) :
  get_prop props "keyFile" = VStr keyFile ->
  get_prop props "certFile" = VStr certFile ->
  w_readFile w t keyFile = ReadContent key ->
  w_readFile w (t ++ [EvReadFile keyFile])%list certFile = ReadError message ->
  readHttpsSettings w (VObj props) t
  = (Throw (JsError ("Error reading certificate file: " ++ message)),
     (t ++ [EvReadFile keyFile; EvReadFile certFile])%list).
Proof.
  intros Hk Hc Hkey Hcert.
  unfold readHttpsSettings. simpl. unfold bind at 1. simpl.
  rewrite Hk, Hc.
  unfold bind, readFileAsyncCatchError. rewrite Hkey, Hcert.
  unfold throw. now rewrite <- app_assoc.
Qed.

(** C8.  With [https = { keyFile: "k.pem", certFile: "c.pem" }] and a
    file reader that delivers the key and fails on the certificate, the
    resolution never returns a record; once everything before the TLS
    material has succeeded, it fails with the error that names the
    certificate file and carries the reader's message. *)
Theorem unreadable_certificate_fails_resolution (devConfig flags : obj)
    (projectDir : string) (props : obj) (message : string) (t : trace) :
  get_prop devConfig "https" = VObj props ->
  get_prop props "keyFile" = VStr "k.pem" ->
  get_prop props "certFile" = VStr "c.pem" ->
  (forall t0, exists key, w_readFile w t0 "k.pem" = ReadContent key) ->
  (forall t0, w_readFile w t0 "c.pem" = ReadError message) ->
  (forall settings t', serverSettings w devConfig flags projectDir t <> (Ok settings, t'))
  /\ (forall draft t1,
         draftBeforeHttps w devConfig flags projectDir t = (Ok draft, t1) ->
         serverSettings w devConfig flags projectDir t
         = (Throw (JsError ("Error reading certificate file: " ++ message)),
            (t1 ++ [EvReadFile "k.pem"; EvReadFile "c.pem"])%list)).
Proof.
  intros Hhttps Hk Hc Hkey Hcert.
  assert (Hfail : forall draft t1,
             attachHttps w devConfig draft t1
             = (Throw (JsError ("Error reading certificate file: " ++ message)),
                (t1 ++ [EvReadFile "k.pem"; EvReadFile "c.pem"])%list)).
  { intros draft t1. unfold attachHttps. rewrite Hhttps. simpl.
    apply bind_throw. destruct (Hkey t1) as [key Hread].
    now apply readHttpsSettings_cert_fails with (key := key). }
  split.
  - intros settings t' Hok. rewrite serverSettings_before_https in Hok.
    apply bind_ok_inv in Hok. destruct Hok as (draft & t1 & _ & Hattach).
    rewrite Hfail in Hattach. discriminate.
  - intros draft t1 Hdraft. rewrite serverSettings_before_https.
    rewrite (bind_ok _ _ _ _ _ Hdraft). apply Hfail.
Qed.

End Https.

(* ================================================================== *)
(** ** The prompt for several candidates *)

Section Prompt.

Variable w : world.

Lemma formatSettingsArrForInquirer_pairs (frameworks : list framework) :
  map (fun o => (ch_name o, ch_value o)) (formatSettingsArrForInquirer w frameworks)
  = map (fun p => (label_of w (fst p) (snd p), spread_commands (fst p) (snd p)))
      (candidate_pairs frameworks).
Proof.
  unfold formatSettingsArrForInquirer, candidate_pairs.
  induction frameworks as [| f rest IH]; [ reflexivity | ].
  cbn [List.concat map flat_map]. rewrite !map_app. f_equal.
  - rewrite !map_map. reflexivity.
  - exact IH.
Qed.

Lemma count_prompts_app (t1 t2 : trace) :
  count_prompts (t1 ++ t2)%list = (count_prompts t1 + count_prompts t2)%nat.
Proof.
  induction t1 as [| e rest IH]; simpl; [ reflexivity | ].
  destruct e; simpl; rewrite IH; reflexivity.
Qed.

(** What the prompt for several candidates does: it is shown exactly
    once, with one option per (framework, watch command) pair; the
    label of an option is [[name] command watchArgs...], where
    [command] is the descriptor's top-level [command] property, not its
    dev command, and the watch arguments are separated by blanks; and
    the settings are derived from the value the prompt returns. *)
Theorem several_candidates_prompt_once (projectDir : string) (t : trace) :
  let frameworks := w_listFrameworks w t projectDir in
  let options := formatSettingsArrForInquirer w frameworks in
  let chosen := w_prompt w (t ++ [EvListFrameworks projectDir])%list options in
  (2 <= List.length frameworks)%nat ->
  exists t',
    detectFrameworkSettings w projectDir t = (Ok (getSettingsFromFramework chosen), t')
    /\ count_prompts t' = S (count_prompts t)
    /\ In (EvPrompt "Multiple possible start commands found" options) t'
    /\ List.length options = List.length (candidate_pairs frameworks)
    /\ map (fun o => (ch_name o, ch_value o)) options
       = map (fun p => (label_of w (fst p) (snd p), spread_commands (fst p) (snd p)))
           (candidate_pairs frameworks).
Proof.
  intros frameworks options chosen Hlen.
  unfold detectFrameworkSettings, bind, listFrameworks.
  fold frameworks.
  destruct frameworks as [| f1 [| f2 rest]] eqn:E; simpl in Hlen; try lia.
  fold options. unfold inquirer_prompt. fold chosen.
  unfold log, emit, ret. eexists. split; [ reflexivity | ].
  split.
  { rewrite !count_prompts_app. simpl. lia. }
  split.
  { apply in_or_app. left. apply in_or_app. right. simpl. auto. }
  pose proof (formatSettingsArrForInquirer_pairs (f1 :: f2 :: rest)) as Hpairs.
  fold options in Hpairs.
  split; [ | exact Hpairs ].
  apply (f_equal (@List.length _)) in Hpairs. now rewrite !length_map in Hpairs.
Qed.


End Prompt.

(* ================================================================== *)
(** ** The properties at the sample inputs *)

(** C1, as first stated, fails: with [framework = "#custom"],
    [command = "npm start"], [targetPort = 8888] and no [port], the
    prober is asked for 8888, returns it, and the record has
    [port = frameworkPort = 8888]. *)
Lemma proxy_port_may_equal_application_port :
  returns_preferred stub_world
  /\ exists settings t',
      serverSettings stub_world custom_on_8888 [] "/site" [] = (Ok settings, t')
      /\ get_prop settings "port" = vint 8888
      /\ get_prop settings "frameworkPort" = vint 8888
      /\ strict_eq (get_prop settings "port") (get_prop settings "frameworkPort") = true.
Proof.
  split; [ intros t z; reflexivity | ].
  eexists. eexists. split; [ vm_compute; reflexivity | ].
  repeat split.
Qed.

Lemma proxy_port_of_result_witness :
  let run := serverSettings stub_world custom_pinned [] "/site" [] in
  exists (acquired : Z) (t1 : trace),
    acquired = w_getPort stub_world t1
                 (js_or (get_prop custom_pinned "port") (vint DEFAULT_PORT))
    /\ get_prop (record_of run) "port" = vint acquired
    /\ ((forall t0 v, (0 < w_getPort stub_world t0 v)%Z) -> (0 < acquired)%Z)
    /\ truthy (get_prop (record_of run) "frameworkPort") = true
    /\ (truthy (get_prop custom_pinned "port") = true ->
        get_prop custom_pinned "port" = vint acquired
        /\ strict_eq (get_prop (record_of run) "port")
             (get_prop (record_of run) "frameworkPort") = false).
Proof.
  intros run.
  apply (proxy_port_of_result stub_world custom_pinned [] "/site" (record_of run) []
           (snd run)).
  vm_compute. reflexivity.
Defined.

Lemma explicit_port_is_exact_default_is_not_witness :
  (exists t',
      serverSettings busy_world custom_pinned [] "/site" []
      = (Throw (JsError ("Could not acquire required " ++ q "port" ++ ": 9000")), t'))
  /\ (forall settings t',
         serverSettings busy_world custom_on_8888 [] "/site" [] = (Ok settings, t') ->
         get_prop settings "port" = vint 8889).
Proof.
  split.
  - pose (run := draftBeforePort busy_world custom_pinned [] "/site" []).
    eexists.
    apply (proj1 (explicit_port_is_exact_default_is_not busy_world custom_pinned []
                    "/site" (record_of run) [] (snd run) eq_refl)).
    + reflexivity.
    + vm_compute. intros H. discriminate H.
  - pose (run := draftBeforePort busy_world custom_on_8888 [] "/site" []).
    apply (proj2 (explicit_port_is_exact_default_is_not busy_world custom_on_8888 []
                    "/site" (record_of run) [] (snd run) eq_refl)).
    reflexivity.
Defined.

Lemma custom_branch_is_validated_witness :
  serverSettings stub_world custom_without_port [] "/site" []
  = (Throw (JsError (q "command" ++ " and " ++ q "targetPort"
                     ++ " properties are required when " ++ q "framework"
                     ++ " is set to " ++ q "#custom")), [])
  /\ serverSettings stub_world auto_with_target [] "/site" []
     = (Throw (JsError (q "framework" ++ " option must be set to " ++ q "#custom"
                        ++ " when specifying both " ++ q "command" ++ " and "
                        ++ q "targetPort" ++ " options")), []).
Proof.
  split.
  - apply (proj1 (proj2 (custom_branch_is_validated stub_world custom_without_port []
                           "/site" [] eq_refl eq_refl (or_introl eq_refl))));
      reflexivity.
  - apply (proj2 (proj2 (custom_branch_is_validated stub_world auto_with_target []
                           "/site" [] eq_refl eq_refl (or_intror eq_refl))));
      reflexivity.
Defined.

(** At a sample input, [targetPort = 3000] together with
    [flags.dir = "./public"] ends in the error about the missing
    command, not in the one about the [dir] flag. *)
Theorem targetPort_with_dir_flag_at_sample :
  fst (serverSettings stub_world auto_with_target dir_flag "/site" [])
  = Throw (JsError ("No " ++ q "command" ++ " specified or detected. The "
                    ++ q "command" ++ " option is required to use "
                    ++ q "targetPort" ++ " option."))
  /\ fst (serverSettings stub_world auto_with_target dir_flag "/site" [])
     <> Throw (JsError (q "targetPort" ++ " option cannot be used in conjunction with "
                        ++ q "dir" ++ " flag which is used to run a static server.")).
Proof.
  split.
  - vm_compute. reflexivity.
  - vm_compute. intros H. discriminate H.
Qed.

Lemma targetPort_with_dir_flag_lacks_command_witness :
  exists t',
    serverSettings stub_world auto_with_target dir_flag "/site" []
    = (Throw (JsError ("No " ++ q "command" ++ " specified or detected. The "
                       ++ q "command" ++ " option is required to use "
                       ++ q "targetPort" ++ " option.")), t').
Proof.
  apply (targetPort_with_dir_flag_lacks_command stub_world auto_with_target dir_flag
           "/site" "./public" []); try reflexivity.
  intros H. discriminate H.
Defined.

(** C5, as first stated, fails: a [targetPort] given as the string
    ["3000"] is rejected with a plain [Error], not a [TypeError]; and
    the number [3000.5] is not rejected, it becomes [frameworkPort]. *)
Lemma targetPort_error_is_plain_and_by_type :
  (exists t',
      serverSettings stub_world custom_string_port [] "/site" []
      = (Throw (JsError ("Invalid " ++ q "targetPort"
                         ++ " option specified. The value of " ++ q "targetPort"
                         ++ " option must be an integer")), t'))
  /\ (forall message t',
         serverSettings stub_world custom_string_port [] "/site" []
         <> (Throw (JsTypeError message), t'))
  /\ (exists settings t',
         serverSettings stub_world custom_fractional_port [] "/site" []
         = (Ok settings, t')
         /\ get_prop settings "frameworkPort" = VNum (NFrac "3000.5")).
Proof.
  split; [ | split ].
  - eexists. vm_compute. reflexivity.
  - intros message t'. vm_compute. intros H. discriminate H.
  - eexists. eexists. split; [ vm_compute; reflexivity | reflexivity ].
Qed.

Lemma non_number_targetPort_is_rejected_witness :
  exists t',
    serverSettings stub_world custom_string_port [] "/site" []
    = (Throw (JsError ("Invalid " ++ q "targetPort" ++ " option specified. The value of "
                       ++ q "targetPort" ++ " option must be an integer")), t').
Proof.
  pose (run := settingsOrigin stub_world custom_string_port [] "/site" []).
  apply (non_number_targetPort_is_rejected stub_world custom_string_port [] "/site"
           (record_of run) [] (snd run)); reflexivity.
Defined.

Lemma several_candidates_prompt_once_witness :
  let frameworks := [gatsby; create_react_app] in
  let options := formatSettingsArrForInquirer stub_world frameworks in
  exists t',
    detectFrameworkSettings stub_world "/site" []
    = (Ok (getSettingsFromFramework (ch_value sample_option)), t')
    /\ count_prompts t' = 1%nat
    /\ In (EvPrompt "Multiple possible start commands found" options) t'
    /\ List.length options = List.length (candidate_pairs frameworks)
    /\ map (fun o => (ch_name o, ch_value o)) options
       = map (fun p => (label_of stub_world (fst p) (snd p),
                        spread_commands (fst p) (snd p)))
           (candidate_pairs frameworks).
Proof.
  intros frameworks options.
  apply (several_candidates_prompt_once stub_world "/site" []).
  simpl. lia.
Defined.

Lemma dir_flag_alone_serves_statically_witness :
  returns_preferred stub_world
  /\ fst (serverSettings stub_world [("framework", VStr "#auto")]
            [("dir", VStr "./public")] "/site" [])
     = Ok [ ("noCmd", VBool true); ("frameworkPort", vint 3999);
            ("dist", VStr "./public"); ("port", vint 8888);
            ("jwtSecret", VStr "secret");
            ("jwtRolePath", VStr "app_metadata.authorization.roles");
            ("functions", VUndef) ].
Proof.
  assert (Hstub : returns_preferred stub_world) by (intros t z; reflexivity).
  split; [ exact Hstub | ].
  exact (proj1 (dir_flag_alone_serves_statically stub_world "#auto" "/site" [] Hstub)).
Defined.

Lemma unreadable_certificate_fails_resolution_witness :
  (forall settings t',
      serverSettings stub_world static_with_https [] "/site" [] <> (Ok settings, t'))
  /\ exists t',
      serverSettings stub_world static_with_https [] "/site" []
      = (Throw (JsError "Error reading certificate file: ENOENT: no such file, open 'c.pem'"),
         t').
Proof.
  pose (run := draftBeforeHttps stub_world static_with_https [] "/site" []).
  assert (Hkey : forall t0, exists key, w_readFile stub_world t0 "k.pem" = ReadContent key).
  { intros t0. eexists. reflexivity. }
  assert (Hcert : forall t0,
             w_readFile stub_world t0 "c.pem"
             = ReadError "ENOENT: no such file, open 'c.pem'").
  { intros t0. reflexivity. }
  destruct (unreadable_certificate_fails_resolution stub_world static_with_https []
              "/site" [("keyFile", VStr "k.pem"); ("certFile", VStr "c.pem")]
              "ENOENT: no such file, open 'c.pem'" [] eq_refl eq_refl eq_refl Hkey Hcert)
    as [Hnever Hfails].
  split; [ exact Hnever | ].
  eexists. apply (Hfails (record_of run) (snd run)). vm_compute. reflexivity.
Defined.

Lemma serverSettings_deterministic_witness :
  deterministic stub_world
  /\ fst (serverSettings stub_world custom_pinned [] "/site" [])
     = fst (serverSettings stub_world custom_pinned [] "/site"
              [EvLog "an earlier call"; EvGetPort (vint 8888) 8888]).
Proof.
  assert (Hdet : deterministic stub_world) by (constructor; reflexivity).
  split; [ exact Hdet | ].
  apply (serverSettings_deterministic stub_world Hdet).
Defined.


(* ================================================================== *)
(** ** Further properties: what a resolved draft looks like *)

Section Drafts.

Variable w : world.

Lemma getStaticServerSettings_ok (dist port : value) (projectDir : string)
    (settings : obj) (t t' : trace) :
  getStaticServerSettings w dist port projectDir t = (Ok settings, t') ->
  exists acquired d t0,
    settings = static_record acquired d
    /\ acquired = w_getPort w t0 (js_or port (vint DEFAULT_STATIC_PORT))
    /\ (truthy dist = true -> dist = VStr d)
    /\ (truthy dist = false -> exists tc, d = w_process_cwd w tc).
Proof.
  unfold getStaticServerSettings. destruct (truthy dist) eqn:Hd; simpl.
  - destruct dist; simpl; unfold bind, ret, throw, path_relative, log, emit, getPort;
      simpl; intros H; try discriminate H.
    inversion H; subst. eexists. eexists. eexists.
    split; [ reflexivity | ]. split; [ reflexivity | ].
    split; [ reflexivity | discriminate ].
  - unfold bind, ret, throw, path_relative, log, emit, getPort, process_cwd. simpl.
    intros H. inversion H; subst. eexists. eexists. eexists.
    split; [ reflexivity | ]. split; [ reflexivity | ].
    split; [ discriminate | ]. intros _. eexists. reflexivity.
Qed.

Lemma detectFrameworkSettings_ok (projectDir : string) (settings : obj) (t t' : trace) :
  detectFrameworkSettings w projectDir t = (Ok settings, t') ->
  settings = [] \/ exists f, settings = getSettingsFromFramework f.
Proof.
  unfold detectFrameworkSettings, bind, listFrameworks.
  destruct (w_listFrameworks w t projectDir) as [| f1 [| f2 rest]];
    unfold ret, inquirer_prompt, log, emit; intros H; inversion H; subst; eauto.
Qed.

Lemma validateCustomSettings_ok (devConfig : obj) (t t' : trace) (u : unit) :
  validateCustomSettings devConfig t = (Ok u, t') ->
  is_str (get_prop devConfig "framework") "#custom"
  = truthy (get_prop devConfig "command") && truthy (get_prop devConfig "targetPort").
Proof.
  unfold validateCustomSettings. intros H. inv_ok.
  rewrite truthy_js_and in Hcond0.
  destruct (is_str (get_prop devConfig "framework") "#custom"),
    (truthy (get_prop devConfig "command")),
    (truthy (get_prop devConfig "targetPort")); simpl in *; congruence.
Qed.

(** The drafts lines 108-135 can produce. *)
Lemma settingsOrigin_ok (devConfig flags : obj) (projectDir : string)
    (settings : obj) (t t' : trace) :
  settingsOrigin w devConfig flags projectDir t = (Ok settings, t') ->
  is_string (get_prop devConfig "framework") = true
  /\ ((truthy (get_prop flags "dir") = true
       /\ exists acquired d,
           settings = static_record acquired d /\ get_prop flags "dir" = VStr d)
      \/ (truthy (get_prop flags "dir") = false
          /\ (settings = []
              \/ (settings = [ ("framework", VStr "#custom") ]
                  /\ truthy (get_prop devConfig "command") = true
                  /\ truthy (get_prop devConfig "targetPort") = true)
              \/ exists f, settings = getSettingsFromFramework f))).
Proof.
  unfold settingsOrigin. intros H.
  apply bind_ok_inv in H. destruct H as (u & t0 & Hcheck & H).
  apply throw_if_ok_inv in Hcheck. destruct Hcheck as [Hstr ->].
  apply negb_false_iff in Hstr. split; [ exact Hstr | ].
  destruct (truthy (get_prop flags "dir")) eqn:Hdir.
  - left. split; [ reflexivity | ].
    apply bind_ok_inv in H. destruct H as (u' & t1 & _ & H).
    apply getStaticServerSettings_ok in H.
    destruct H as (acquired & d & t2 & -> & _ & Hd & _).
    exists acquired, d. split; [ reflexivity | now apply Hd ].
  - right. split; [ reflexivity | ].
    match type of H with (if ?c then _ else _) _ = _ => destruct c eqn:Hauto end.
    { apply detectFrameworkSettings_ok in H. destruct H as [-> | [f ->]]; eauto. }
    match type of H with (if ?c then _ else _) _ = _ => destruct c eqn:Hcustom end.
    { apply bind_ok_inv in H. destruct H as (u' & t1 & Hvalid & H).
      apply validateCustomSettings_ok in Hvalid.
      unfold ret in H. inversion H; subst.
      right. left. split; [ reflexivity | ].
      rewrite truthy_js_and, Hvalid in Hcustom.
      rewrite orb_diag in Hcustom. now apply andb_true_iff in Hcustom. }
    match type of H with (if ?c then _ else _) _ = _ => destruct c end.
    { inv_ok. unfold getFramework in Hstep1. inversion Hstep1; subst. eauto. }
    inv_ok. now left.
Qed.

(** Lines 137-191 on a draft: the assignments, the checks that passed,
    and the static fallback when nothing can be run. *)
Lemma applyOverrides_inv (devConfig flags : obj) (projectDir : string)
    (settings settings' : obj) (t t' : trace) :
  applyOverrides w devConfig flags projectDir settings t = (Ok settings', t') ->
  let draft := overridden devConfig flags settings in
  (truthy (get_prop devConfig "targetPort") = true ->
   is_number (get_prop devConfig "targetPort") = true
   /\ strict_eq (get_prop devConfig "targetPort") (get_prop devConfig "port") = false
   /\ truthy (get_prop draft "command") = true
   /\ truthy (get_prop flags "dir") = false)
  /\ ((needs_fallback draft = false /\ settings' = draft)
      \/ (needs_fallback draft = true
          /\ exists t0 t1,
              getStaticServerSettings w (get_prop draft "dist")
                (get_prop flags "staticServerPort") projectDir t0 = (Ok settings', t1))).
Proof.
  intros H draft. unfold applyOverrides in H.
  apply bind_ok_inv in H. destruct H as (s1 & t1 & H1 & H).
  assert (Hs1 : s1 = if negb (truthy (get_prop settings "noCmd"))
                        && truthy (get_prop devConfig "command")
                     then set_prop settings "command" (get_prop devConfig "command")
                     else settings).
  { destruct (negb (truthy (get_prop settings "noCmd"))
              && truthy (get_prop devConfig "command")).
    - inv_ok. unfold log, emit in Hstep. now inversion Hstep.
    - inv_ok. reflexivity. }
  clear H1.
  apply bind_ok_inv in H. destruct H as (s3 & t3 & H3 & H).
  assert (Hs3 : s3 = draft
                /\ (truthy (get_prop devConfig "targetPort") = true ->
                    is_number (get_prop devConfig "targetPort") = true
                    /\ strict_eq (get_prop devConfig "targetPort")
                         (get_prop devConfig "port") = false
                    /\ truthy (get_prop draft "command") = true
                    /\ truthy (get_prop flags "dir") = false)).
  { unfold draft, overridden. rewrite <- Hs1.
    destruct (truthy (get_prop devConfig "targetPort")) eqn:Htp.
    - inv_ok. split; [ reflexivity | ]. intros _.
      rewrite get_set_other by reflexivity.
      repeat split; auto.
      + now apply negb_false_iff.
      + now apply negb_false_iff.
    - inv_ok. split; [ reflexivity | discriminate ]. }
  destruct Hs3 as [-> Htarget]. clear H3.
  split; [ exact Htarget | ].
  apply bind_ok_inv in H. destruct H as (u & t4 & _ & H).
  apply bind_ok_inv in H. destruct H as (s5 & t5 & H5 & H).
  inv_ok.
  fold (needs_fallback draft) in H5.
  destruct (needs_fallback draft).
  - right. split; [ reflexivity | ].
    apply bind_ok_inv in H5. destruct H5 as (u' & t6 & _ & H5). eauto.
  - left. inv_ok. split; reflexivity.
Qed.

End Drafts.

Section Resolved.

Variable w : world.

Lemma get_overridden_other (devConfig flags settings : obj) (k : string) :
  String.eqb k "command" = false ->
  String.eqb k "dist" = false ->
  String.eqb k "frameworkPort" = false ->
  get_prop (overridden devConfig flags settings) k = get_prop settings k
  /\ has_prop (overridden devConfig flags settings) k = has_prop settings k.
Proof.
  intros Hc Hd Hf. unfold overridden.
  destruct (truthy (get_prop devConfig "targetPort"));
    destruct (negb (truthy (get_prop settings "noCmd"))
              && truthy (get_prop devConfig "command"));
    rewrite ?get_set_other, ?has_set_other by assumption; split; reflexivity.
Qed.

Lemma get_overridden_command (devConfig flags settings : obj) :
  get_prop (overridden devConfig flags settings) "command"
  = if negb (truthy (get_prop settings "noCmd")) && truthy (get_prop devConfig "command")
    then get_prop devConfig "command"
    else get_prop settings "command".
Proof.
  unfold overridden.
  destruct (truthy (get_prop devConfig "targetPort"));
    destruct (negb (truthy (get_prop settings "noCmd"))
              && truthy (get_prop devConfig "command"));
    rewrite ?(get_set_other _ "frameworkPort" "command"),
      ?(get_set_other _ "dist" "command") by reflexivity;
    rewrite ?get_set_same; reflexivity.
Qed.

Lemma get_overridden_dist (devConfig flags settings : obj) :
  get_prop (overridden devConfig flags settings) "dist"
  = js_or (js_or (get_prop flags "dir") (get_prop devConfig "publish"))
      (get_prop settings "dist").
Proof.
  unfold overridden.
  destruct (truthy (get_prop devConfig "targetPort"));
    destruct (negb (truthy (get_prop settings "noCmd"))
              && truthy (get_prop devConfig "command"));
    rewrite ?(get_set_other _ "frameworkPort" "dist") by reflexivity;
    rewrite get_set_same;
    rewrite ?(get_set_other _ "command" "dist") by reflexivity; reflexivity.
Qed.

Lemma get_overridden_frameworkPort (devConfig flags settings : obj) :
  get_prop (overridden devConfig flags settings) "frameworkPort"
  = if truthy (get_prop devConfig "targetPort")
    then get_prop devConfig "targetPort"
    else get_prop settings "frameworkPort".
Proof.
  unfold overridden.
  destruct (truthy (get_prop devConfig "targetPort"));
    destruct (negb (truthy (get_prop settings "noCmd"))
              && truthy (get_prop devConfig "command"));
    rewrite ?get_set_same;
    rewrite ?(get_set_other _ "dist" "frameworkPort"),
      ?(get_set_other _ "command" "frameworkPort") by reflexivity; reflexivity.
Qed.

Lemma keys_within_set (names : list string) (o : obj) (k : string) (v : value) :
  keys_within names o = true ->
  existsb (String.eqb k) names = true ->
  keys_within names (set_prop o k v) = true.
Proof.
  intros Ho Hk. induction o as [| [k0 v0] rest IH]; simpl in *.
  - now rewrite Hk.
  - apply andb_true_iff in Ho. destruct Ho as [H0 Hrest].
    destruct (String.eqb k k0) eqn:E; simpl.
    + now rewrite H0, Hrest.
    + now rewrite H0, IH.
Qed.

Lemma keys_within_overridden (devConfig flags settings : obj) :
  keys_within known_properties settings = true ->
  keys_within known_properties (overridden devConfig flags settings) = true.
Proof.
  intros H. unfold overridden.
  destruct (truthy (get_prop devConfig "targetPort"));
    destruct (negb (truthy (get_prop settings "noCmd"))
              && truthy (get_prop devConfig "command"));
    repeat (apply keys_within_set; [ | reflexivity ]); exact H.
Qed.

(** The two kinds of draft that pass lines 108-191: a static server, or
    the overridden settings of an origin that names something to run. *)
Lemma draftBeforePort_ok (devConfig flags : obj) (projectDir : string)
    (draft : obj) (t t1 : trace) :
  draftBeforePort w devConfig flags projectDir t = (Ok draft, t1) ->
  (exists acquired d,
      draft = static_record acquired d
      /\ truthy (get_prop devConfig "targetPort") = false
      /\ (truthy (js_or (get_prop flags "dir") (get_prop devConfig "publish")) = true ->
          js_or (get_prop flags "dir") (get_prop devConfig "publish") = VStr d)
      /\ (truthy (get_prop flags "dir") = true
          \/ exists origin,
              origin_shape devConfig origin
              /\ needs_fallback (overridden devConfig flags origin) = true))
  \/ (truthy (get_prop flags "dir") = false
      /\ exists origin,
          origin_shape devConfig origin
          /\ draft = overridden devConfig flags origin
          /\ needs_fallback draft = false
          /\ (truthy (get_prop devConfig "targetPort") = true ->
              is_number (get_prop devConfig "targetPort") = true
              /\ strict_eq (get_prop devConfig "targetPort")
                   (get_prop devConfig "port") = false
              /\ truthy (get_prop draft "command") = true)).
Proof.
  unfold draftBeforePort. intros H.
  apply bind_ok_inv in H. destruct H as (origin & t0 & Horigin & Hover).
  apply settingsOrigin_ok in Horigin. destruct Horigin as [_ Horigin].
  apply applyOverrides_inv in Hover. cbv zeta in Hover.
  destruct Hover as [Htarget Hfinal].
  destruct Horigin as [[Hdir (acquired & d & -> & Hflag)] | [Hdir Hshape]].
  - left.
    assert (Htp : truthy (get_prop devConfig "targetPort") = false).
    { destruct (truthy (get_prop devConfig "targetPort")) eqn:Htp; [ | reflexivity ].
      destruct (Htarget eq_refl) as (_ & _ & _ & Hnodir). congruence. }
    assert (Hdraft : overridden devConfig flags (static_record acquired d)
                     = static_record acquired d).
    { unfold overridden. rewrite Htp. simpl.
      rewrite !(js_or_truthy (get_prop flags "dir")) by exact Hdir.
      rewrite Hflag. reflexivity. }
    rewrite Hdraft in Hfinal.
    destruct Hfinal as [[_ ->] | [Hfb _]]; [ | discriminate Hfb ].
    exists acquired, d. split; [ reflexivity | ]. split; [ exact Htp | ].
    split; [ | now left ].
    intros _. now rewrite (js_or_truthy _ _ Hdir).
  - destruct Hfinal as [[Hnf ->] | [Hfb (t2 & t3 & Hstatic)]].
    + right. split; [ exact Hdir | ]. exists origin.
      split; [ exact Hshape | ]. split; [ reflexivity | ]. split; [ exact Hnf | ].
      intros Htp. destruct (Htarget Htp) as (Hn & He & Hc & _). auto.
    + left.
      apply getStaticServerSettings_ok in Hstatic.
      destruct Hstatic as (acquired & d & t4 & -> & _ & Hd & _).
      exists acquired, d. split; [ reflexivity | ].
      assert (Htp : truthy (get_prop devConfig "targetPort") = false).
      { destruct (truthy (get_prop devConfig "targetPort")) eqn:Htp; [ | reflexivity ].
        destruct (Htarget eq_refl) as (_ & _ & Hc & _).
        unfold needs_fallback in Hfb. rewrite Hc in Hfb. discriminate Hfb. }
      split; [ exact Htp | ].
      split; [ | right; eauto ].
      intros Hpub. rewrite get_overridden_dist in Hd.
      rewrite (js_or_truthy _ _ Hpub) in Hd. now apply Hd.
Qed.

Lemma origin_shape_facts (devConfig origin : obj) :
  origin_shape devConfig origin ->
  has_prop origin "noCmd" = false
  /\ get_prop origin "noCmd" = VUndef
  /\ get_prop origin "functions" = VUndef
  /\ has_prop origin "functionsPort" = false
  /\ has_prop origin "https" = false
  /\ keys_within known_properties origin = true.
Proof.
  intros [-> | [(-> & _ & _) | [f ->]]]; repeat split; reflexivity.
Qed.

Lemma readHttpsSettings_ok (options settings : value) (t t' : trace) :
  readHttpsSettings w options t = (Ok settings, t') ->
  exists key cert, settings = VObj [ ("key", VBuf key); ("cert", VBuf cert) ].
Proof.
  unfold readHttpsSettings. intros H.
  apply bind_ok_inv in H. destruct H as (u & t0 & _ & H).
  destruct (get_member options "keyFile"); try (inv_ok; fail).
  destruct (get_member options "certFile"); try (inv_ok; fail).
  apply bind_ok_inv in H. destruct H as (k & t1 & _ & H).
  apply bind_ok_inv in H. destruct H as (c & t2 & _ & H).
  destruct k; [ | inv_ok ]. destruct c; [ | inv_ok ].
  inv_ok. eauto.
Qed.

(** The record that is returned, in terms of the draft of lines
    108-191. *)
Lemma serverSettings_ok_full (devConfig flags : obj) (projectDir : string)
    (settings : obj) (t t' : trace) :
  serverSettings w devConfig flags projectDir t = (Ok settings, t') ->
  exists draft t1,
    draftBeforePort w devConfig flags projectDir t = (Ok draft, t1)
    /\ (forall k, existsb (String.eqb k) late_properties = false ->
                  get_prop settings k = get_prop draft k
                  /\ has_prop settings k = has_prop draft k)
    /\ get_prop settings "jwtSecret"
       = js_or (get_prop devConfig "jwtSecret") (VStr "secret")
    /\ get_prop settings "jwtRolePath"
       = js_or (get_prop devConfig "jwtRolePath") (VStr "app_metadata.authorization.roles")
    /\ get_prop settings "functions"
       = js_or (get_prop devConfig "functions") (get_prop draft "functions")
    /\ has_prop settings "functionsPort"
       = truthy (get_prop settings "functions") || has_prop draft "functionsPort"
    /\ (truthy (get_prop settings "functions") = true ->
        exists t0,
          get_prop settings "functionsPort"
          = vint (w_getPort w t0 (js_or (get_prop devConfig "functionsPort") (vint 0))))
    /\ has_prop settings "https"
       = truthy (get_prop devConfig "https") || has_prop draft "https"
    /\ (truthy (get_prop devConfig "https") = true ->
        exists key cert,
          get_prop settings "https" = VObj [ ("key", VBuf key); ("cert", VBuf cert) ])
    /\ (keys_within known_properties draft = true ->
        keys_within known_properties settings = true)
    /\ has_prop settings "port" = true
    /\ has_prop settings "jwtSecret" = true
    /\ has_prop settings "jwtRolePath" = true
    /\ has_prop settings "functions" = true.
Proof.
  unfold serverSettings. intros H.
  apply bind_ok_inv in H. destruct H as (s0 & t0 & H0 & H).
  apply bind_ok_inv in H. destruct H as (draft & t1 & H1 & H).
  apply bind_ok_inv in H. destruct H as (s2 & t2 & H2 & H).
  apply bind_ok_inv in H. destruct H as (s3 & t3 & H3 & H).
  exists draft, t1. split.
  { unfold draftBeforePort. now rewrite (bind_ok _ _ _ _ _ H0). }
  rewrite acquireProxyPort_eq in H2. cbv zeta in H2.
  match type of H2 with (if ?c then _ else _) = _ => destruct c end;
    [ discriminate H2 | ].
  inversion H2; subst s2 t2; clear H2.
  unfold attachFunctions in H3. cbv zeta in H3.
  rewrite get_set_same in H3.
  rewrite !(get_set_other _ _ "functions") in H3 by reflexivity.
  unfold attachHttps in H.
  destruct (truthy (js_or (get_prop devConfig "functions") (get_prop draft "functions")))
    eqn:Hfun;
    destruct (truthy (get_prop devConfig "https")) eqn:Hhttps;
    inv_ok;
    try match goal with
      | Hport : getPort _ _ _ = (Ok _, _) |- _ =>
          unfold getPort in Hport; inversion Hport; subst; clear Hport
      end;
    try match goal with
      | Hread : readHttpsSettings _ _ _ = (Ok _, _) |- _ =>
          apply readHttpsSettings_ok in Hread;
          destruct Hread as (key & cert & ->)
      end;
    repeat match goal with
      | |- _ /\ _ => split
      end;
    try (intros k Hk; simpl in Hk;
         repeat match goal with
           | Hk : _ || _ = false |- _ =>
               apply orb_false_elim in Hk; destruct Hk as [? Hk]
           end;
         split);
    try (intros Hkeys;
         repeat (apply keys_within_set; [ | reflexivity ]); exact Hkeys);
    repeat first
      [ rewrite get_set_same
      | rewrite has_set_same
      | rewrite get_set_other by first [ assumption | reflexivity ]
      | rewrite has_set_other by first [ assumption | reflexivity ] ];
    rewrite ?Hfun; try reflexivity; try discriminate;
    try (intros _; eexists; reflexivity);
    try (intros _; eexists; eexists; reflexivity).
Qed.

End Resolved.

(* ================================================================== *)
(** ** Further properties: the returned record *)

Section Record.

Variable w : world.

Lemma truthy_has (o : obj) (k : string) :
  truthy (get_prop o k) = true -> has_prop o k = true.
Proof.
  induction o as [| [k' v'] rest IH]; simpl; [ discriminate | ].
  destruct (String.eqb k k'); simpl; auto.
Qed.

Lemma truthy_js_or_default (a b : value) :
  truthy b = true -> truthy (js_or a b) = true.
Proof. unfold js_or. destruct (truthy a) eqn:E; auto. Qed.

Lemma truthy_js_or_undef (a : value) : truthy (js_or a VUndef) = truthy a.
Proof. unfold js_or. destruct (truthy a) eqn:E; auto. Qed.

Lemma not_late (k : string) :
  existsb (String.eqb k) late_properties = false ->
  forall settings draft : obj,
    (forall k0, existsb (String.eqb k0) late_properties = false ->
                get_prop settings k0 = get_prop draft k0
                /\ has_prop settings k0 = has_prop draft k0) ->
    get_prop settings k = get_prop draft k /\ has_prop settings k = has_prop draft k.
Proof. intros Hk settings draft H. now apply H. Qed.

Lemma has_overridden_dist (devConfig flags settings : obj) :
  has_prop (overridden devConfig flags settings) "dist" = true.
Proof.
  unfold overridden.
  destruct (truthy (get_prop devConfig "targetPort"));
    rewrite ?(has_set_other _ "frameworkPort" "dist") by reflexivity;
    apply has_set_same.
Qed.

Lemma settingsOrigin_static_port (devConfig flags : obj) (projectDir : string)
    (settings : obj) (t t' : trace) :
  settingsOrigin w devConfig flags projectDir t = (Ok settings, t') ->
  truthy (get_prop flags "dir") = true ->
  exists acquired d t0,
    settings = static_record acquired d
    /\ acquired = w_getPort w t0
                    (js_or (get_prop flags "staticServerPort") (vint DEFAULT_STATIC_PORT)).
Proof.
  unfold settingsOrigin. intros H Hdir.
  apply bind_ok_inv in H. destruct H as (u & t0 & _ & H).
  rewrite Hdir in H.
  apply bind_ok_inv in H. destruct H as (u' & t1 & _ & H).
  apply getStaticServerSettings_ok in H.
  destruct H as (acquired & d & t2 & -> & Hacq & _). eauto.
Qed.

(** The port of a static draft is an answer of the prober for the
    [staticServerPort] flag, or for 3999. *)
Lemma static_draft_port (devConfig flags : obj) (projectDir : string)
    (draft : obj) (t t1 : trace) :
  draftBeforePort w devConfig flags projectDir t = (Ok draft, t1) ->
  truthy (get_prop draft "noCmd") = true ->
  exists t0,
    get_prop draft "frameworkPort"
    = vint (w_getPort w t0
              (js_or (get_prop flags "staticServerPort") (vint DEFAULT_STATIC_PORT))).
Proof.
  unfold draftBeforePort. intros H Hstatic.
  apply bind_ok_inv in H. destruct H as (origin & t0 & Horigin & Hover).
  apply applyOverrides_inv in Hover. cbv zeta in Hover.
  destruct Hover as [Htarget [[_ ->] | [_ (t2 & t3 & Hfallback)]]].
  - destruct (get_overridden_other devConfig flags origin "noCmd") as [Hg _];
      try reflexivity.
    rewrite Hg in Hstatic.
    pose proof (settingsOrigin_ok w _ _ _ _ _ _ Horigin) as [_ [[Hdir _] | [Hdir Hshape]]].
    + destruct (settingsOrigin_static_port _ _ _ _ _ _ Horigin Hdir)
        as (acquired & d & t4 & -> & ->).
      rewrite get_overridden_frameworkPort.
      destruct (truthy (get_prop devConfig "targetPort")) eqn:Htp.
      * destruct (Htarget eq_refl) as (_ & _ & _ & Hnodir). congruence.
      * eexists. reflexivity.
    + exfalso.
      assert (Hnone : get_prop origin "noCmd" = VUndef).
      { destruct Hshape as [-> | [(-> & _) | [f ->]]]; reflexivity. }
      rewrite Hnone in Hstatic. discriminate Hstatic.
  - apply getStaticServerSettings_ok in Hfallback.
    destruct Hfallback as (acquired & d & t4 & -> & -> & _). eexists. reflexivity.
Qed.

Lemma readHttpsSettings_contents (options settings : value) (t t' : trace) :
  readHttpsSettings w options t = (Ok settings, t') ->
  exists keyFile certFile key cert,
    get_member options "keyFile" = VStr keyFile
    /\ get_member options "certFile" = VStr certFile
    /\ w_readFile w t keyFile = ReadContent key
    /\ w_readFile w (t ++ [EvReadFile keyFile])%list certFile = ReadContent cert
    /\ settings = VObj [ ("key", VBuf key); ("cert", VBuf cert) ]
    /\ t' = (t ++ [EvReadFile keyFile; EvReadFile certFile])%list.
Proof.
  unfold readHttpsSettings. intros H.
  apply bind_ok_inv in H. destruct H as (u & t0 & Hcheck & H).
  apply throw_if_ok_inv in Hcheck. destruct Hcheck as [_ ->].
  destruct (get_member options "keyFile") as [ | | | | keyFile | | | ];
    try (inv_ok; fail).
  destruct (get_member options "certFile") as [ | | | | certFile | | | ];
    try (inv_ok; fail).
  unfold bind, readFileAsyncCatchError in H.
  destruct (w_readFile w t keyFile) as [key | ] eqn:Hkey;
    [ | unfold throw in H; discriminate H ].
  destruct (w_readFile w (t ++ [EvReadFile keyFile])%list certFile) as [cert | ] eqn:Hcert;
    [ | unfold throw in H; discriminate H ].
  unfold ret in H. inversion H; subst.
  exists keyFile, certFile, key, cert. rewrite <- app_assoc. repeat split; auto.
Qed.

Lemma serverSettings_https_contents (devConfig flags : obj) (projectDir : string)
    (settings : obj) (t t' : trace) :
  serverSettings w devConfig flags projectDir t = (Ok settings, t') ->
  truthy (get_prop devConfig "https") = true ->
  exists keyFile certFile key cert t0,
    get_member (get_prop devConfig "https") "keyFile" = VStr keyFile
    /\ get_member (get_prop devConfig "https") "certFile" = VStr certFile
    /\ w_readFile w t0 keyFile = ReadContent key
    /\ w_readFile w (t0 ++ [EvReadFile keyFile])%list certFile = ReadContent cert
    /\ get_prop settings "https" = VObj [ ("key", VBuf key); ("cert", VBuf cert) ]
    /\ t' = (t0 ++ [EvReadFile keyFile; EvReadFile certFile])%list.
Proof.
  intros Hok Hhttps. rewrite serverSettings_before_https in Hok.
  apply bind_ok_inv in Hok. destruct Hok as (draft & t1 & _ & Hattach).
  unfold attachHttps in Hattach. rewrite Hhttps in Hattach.
  apply bind_ok_inv in Hattach. destruct Hattach as (https & t2 & Hread & Hret).
  unfold ret in Hret. inversion Hret; subst.
  apply readHttpsSettings_contents in Hread.
  destruct Hread as (keyFile & certFile & key & cert & Hk & Hc & Hkey & Hcert & -> & ->).
  exists keyFile, certFile, key, cert, t1. rewrite get_set_same. repeat split; auto.
Qed.

(** X1.  When [devConfig.targetPort] is supplied and a record is
    returned, the record's [frameworkPort] is that [targetPort], which
    is a number different from [devConfig.port]; the record has a
    command and is not a static server, and there was no [dir] flag. *)
Theorem targetPort_becomes_frameworkPort (devConfig flags : obj) (projectDir : string)
    (settings : obj) (t t' : trace) :
  serverSettings w devConfig flags projectDir t = (Ok settings, t') ->
  truthy (get_prop devConfig "targetPort") = true ->
  get_prop settings "frameworkPort" = get_prop devConfig "targetPort"
  /\ is_number (get_prop devConfig "targetPort") = true
  /\ strict_eq (get_prop devConfig "targetPort") (get_prop devConfig "port") = false
  /\ truthy (get_prop settings "command") = true
  /\ has_prop settings "noCmd" = false
  /\ truthy (get_prop flags "dir") = false.
Proof.
  intros Hok Htp.
  apply serverSettings_ok_full in Hok.
  destruct Hok as (draft & t1 & Hdraft & Hsame & _).
  apply draftBeforePort_ok in Hdraft.
  destruct Hdraft as [(acquired & d & _ & Hno & _) | (Hdir & origin & Hshape & -> & _ & Htarget)];
    [ congruence | ].
  destruct (Htarget Htp) as (Hnum & Hdiff & Hcmd).
  destruct (Hsame "frameworkPort" eq_refl) as [-> _].
  destruct (Hsame "command" eq_refl) as [-> _].
  destruct (Hsame "noCmd" eq_refl) as [_ ->].
  rewrite get_overridden_frameworkPort, Htp.
  destruct (get_overridden_other devConfig flags origin "noCmd") as [_ ->];
    try reflexivity.
  destruct (origin_shape_facts _ _ Hshape) as (Hnocmd & _).
  repeat split; auto.
Qed.

(** X2.  Without a [dir] flag, a [command] of the configuration is the
    [command] of every record that is returned, whatever was detected. *)
Theorem configured_command_wins (devConfig flags : obj) (projectDir : string)
    (settings : obj) (t t' : trace) :
  serverSettings w devConfig flags projectDir t = (Ok settings, t') ->
  truthy (get_prop flags "dir") = false ->
  truthy (get_prop devConfig "command") = true ->
  get_prop settings "command" = get_prop devConfig "command".
Proof.
  intros Hok Hdir Hcmd.
  apply serverSettings_ok_full in Hok.
  destruct Hok as (draft & t1 & Hdraft & Hsame & _).
  destruct (Hsame "command" eq_refl) as [-> _].
  apply draftBeforePort_ok in Hdraft.
  destruct Hdraft as [(acquired & d & _ & _ & _ & [Hd | (origin & Hshape & Hfb)])
                     | (_ & origin & Hshape & -> & _)].
  - congruence.
  - exfalso. destruct (origin_shape_facts _ _ Hshape) as (_ & Hnocmd & _).
    unfold needs_fallback in Hfb.
    rewrite get_overridden_command, Hnocmd, Hcmd in Hfb. simpl in Hfb.
    rewrite Hcmd in Hfb. discriminate Hfb.
  - destruct (origin_shape_facts _ _ Hshape) as (_ & Hnocmd & _).
    rewrite get_overridden_command, Hnocmd, Hcmd. reflexivity.
Qed.

(** X3.  A record that is returned is of one of two kinds.  Either it
    is a static server: [noCmd] is [true], [frameworkPort] is the port
    the prober returned for the [staticServerPort] flag (for 3999
    without the flag), [dist] is a string, and it has no [command],
    [framework] or [env].  Or it has no [noCmd] at all and names a
    command or a framework. *)
Theorem record_is_static_or_runnable (devConfig flags : obj) (projectDir : string)
    (settings : obj) (t t' : trace) :
  serverSettings w devConfig flags projectDir t = (Ok settings, t') ->
  (get_prop settings "noCmd" = VBool true
   /\ (exists t0,
          get_prop settings "frameworkPort"
          = vint (w_getPort w t0
                    (js_or (get_prop flags "staticServerPort")
                       (vint DEFAULT_STATIC_PORT))))
   /\ (exists d, get_prop settings "dist" = VStr d)
   /\ has_prop settings "command" = false
   /\ has_prop settings "framework" = false
   /\ has_prop settings "env" = false)
  \/ (has_prop settings "noCmd" = false
      /\ truthy (get_prop settings "command") || truthy (get_prop settings "framework")
         = true).
Proof.
  intros Hok.
  apply serverSettings_ok_full in Hok.
  destruct Hok as (draft & t1 & Hdraft & Hsame & _).
  destruct (Hsame "noCmd" eq_refl) as [Hg1 Hh1].
  destruct (Hsame "frameworkPort" eq_refl) as [Hg2 _].
  destruct (Hsame "dist" eq_refl) as [Hg3 _].
  destruct (Hsame "command" eq_refl) as [Hg4 Hh4].
  destruct (Hsame "framework" eq_refl) as [Hg5 Hh5].
  destruct (Hsame "env" eq_refl) as [_ Hh6].
  pose proof (static_draft_port _ _ _ _ _ _ Hdraft) as Hprober.
  apply draftBeforePort_ok in Hdraft.
  destruct Hdraft as [(acquired & d & -> & _) | (_ & origin & Hshape & -> & Hnf & _)].
  - left. destruct (Hprober eq_refl) as (t0 & Hport).
    rewrite Hg1, Hg2, Hg3, Hh4, Hh5, Hh6.
    split; [ reflexivity | ]. split; [ exists t0; exact Hport | ].
    split; [ exists d; reflexivity | ]. repeat split.
  - right. rewrite Hh1, Hg4, Hg5.
    destruct (origin_shape_facts _ _ Hshape) as (Hnocmd & Hgnocmd & _).
    destruct (get_overridden_other devConfig flags origin "noCmd") as [Hgn Hhn];
      try reflexivity.
    split; [ congruence | ].
    unfold needs_fallback in Hnf. rewrite Hgn, Hgnocmd in Hnf. simpl in Hnf.
    rewrite andb_true_r in Hnf.
    destruct (truthy (get_prop (overridden devConfig flags origin) "command"));
      [ reflexivity | ].
    destruct (truthy (get_prop (overridden devConfig flags origin) "framework"));
      [ reflexivity | discriminate Hnf ].
Qed.

(** X4.  The directory to serve: when the [dir] flag or the
    configuration's [publish] is supplied, the record's [dist] is the
    [dir] flag if there is one, else [publish]; what the detector says
    is not used. *)
Theorem dist_prefers_flag_then_publish (devConfig flags : obj) (projectDir : string)
    (settings : obj) (t t' : trace) :
  serverSettings w devConfig flags projectDir t = (Ok settings, t') ->
  truthy (js_or (get_prop flags "dir") (get_prop devConfig "publish")) = true ->
  get_prop settings "dist" = js_or (get_prop flags "dir") (get_prop devConfig "publish").
Proof.
  intros Hok Hpub.
  apply serverSettings_ok_full in Hok.
  destruct Hok as (draft & t1 & Hdraft & Hsame & _).
  destruct (Hsame "dist" eq_refl) as [-> _].
  apply draftBeforePort_ok in Hdraft.
  destruct Hdraft as [(acquired & d & -> & _ & Hd & _) | (_ & origin & _ & -> & _)].
  - rewrite (Hd Hpub). reflexivity.
  - rewrite get_overridden_dist. now apply js_or_truthy.
Qed.

(** X5.  Every record carries [jwtSecret] and [jwtRolePath]: the
    configured value when there is one, else ["secret"] and
    ["app_metadata.authorization.roles"]; neither is ever empty. *)
Theorem jwt_settings_are_defaulted (devConfig flags : obj) (projectDir : string)
    (settings : obj) (t t' : trace) :
  serverSettings w devConfig flags projectDir t = (Ok settings, t') ->
  get_prop settings "jwtSecret" = js_or (get_prop devConfig "jwtSecret") (VStr "secret")
  /\ get_prop settings "jwtRolePath"
     = js_or (get_prop devConfig "jwtRolePath") (VStr "app_metadata.authorization.roles")
  /\ truthy (get_prop settings "jwtSecret") = true
  /\ truthy (get_prop settings "jwtRolePath") = true.
Proof.
  intros Hok.
  apply serverSettings_ok_full in Hok.
  destruct Hok as (draft & t1 & _ & _ & -> & -> & _).
  repeat split; apply truthy_js_or_default; reflexivity.
Qed.

(** X6.  The functions server: the record's [functions] is the
    configured directory or [undefined] (no origin supplies one), and
    the record has a [functionsPort] exactly when [functions] is
    configured; that port is the prober's answer for the configured
    [functionsPort], or for 0 when there is none. *)
Theorem functionsPort_iff_functions (devConfig flags : obj) (projectDir : string)
    (settings : obj) (t t' : trace) :
  serverSettings w devConfig flags projectDir t = (Ok settings, t') ->
  get_prop settings "functions" = js_or (get_prop devConfig "functions") VUndef
  /\ has_prop settings "functionsPort" = truthy (get_prop devConfig "functions")
  /\ (truthy (get_prop devConfig "functions") = true ->
      exists t0,
        get_prop settings "functionsPort"
        = vint (w_getPort w t0 (js_or (get_prop devConfig "functionsPort") (vint 0)))).
Proof.
  intros Hok.
  apply serverSettings_ok_full in Hok.
  destruct Hok as (draft & t1 & Hdraft & _ & _ & _ & Hfun & Hhas & Hport & _).
  assert (Hnone : get_prop draft "functions" = VUndef
                  /\ has_prop draft "functionsPort" = false).
  { apply draftBeforePort_ok in Hdraft.
    destruct Hdraft as [(acquired & d & -> & _) | (_ & origin & Hshape & -> & _)].
    - split; reflexivity.
    - destruct (origin_shape_facts _ _ Hshape) as (_ & _ & Hf & Hfp & _).
      destruct (get_overridden_other devConfig flags origin "functions") as [-> _];
        try reflexivity.
      destruct (get_overridden_other devConfig flags origin "functionsPort") as [_ ->];
        try reflexivity.
      auto. }
  destruct Hnone as [Hf Hfp]. rewrite Hf in Hfun. rewrite Hfp, orb_false_r in Hhas.
  rewrite Hfun in Hhas, Hport. rewrite truthy_js_or_undef in Hhas, Hport.
  auto.
Qed.

(** X7.  The record has an [https] property exactly when the
    configuration has an [https] block, and then it holds what the file
    reader delivered for the block's [keyFile] as [key] and for its
    [certFile] as [cert]; the two reads, key first, are the last thing
    the resolution does. *)
Theorem https_iff_configured (devConfig flags : obj) (projectDir : string)
    (settings : obj) (t t' : trace) :
  serverSettings w devConfig flags projectDir t = (Ok settings, t') ->
  has_prop settings "https" = truthy (get_prop devConfig "https")
  /\ (truthy (get_prop devConfig "https") = true ->
      exists keyFile certFile key cert t0,
        get_member (get_prop devConfig "https") "keyFile" = VStr keyFile
        /\ get_member (get_prop devConfig "https") "certFile" = VStr certFile
        /\ w_readFile w t0 keyFile = ReadContent key
        /\ w_readFile w (t0 ++ [EvReadFile keyFile])%list certFile = ReadContent cert
        /\ get_prop settings "https" = VObj [ ("key", VBuf key); ("cert", VBuf cert) ]
        /\ t' = (t0 ++ [EvReadFile keyFile; EvReadFile certFile])%list).
Proof.
  intros Hok.
  pose proof (serverSettings_https_contents _ _ _ _ _ _ Hok) as Hcontents.
  apply serverSettings_ok_full in Hok.
  destruct Hok as (draft & t1 & Hdraft & _ & _ & _ & _ & _ & _ & Hhas & Hval & _).
  split; [ | exact Hcontents ].
  rewrite Hhas.
  apply draftBeforePort_ok in Hdraft.
  destruct Hdraft as [(acquired & d & -> & _) | (_ & origin & Hshape & -> & _)].
  - simpl. apply orb_false_r.
  - destruct (origin_shape_facts _ _ Hshape) as (_ & _ & _ & _ & Hh & _).
    destruct (get_overridden_other devConfig flags origin "https") as [_ ->];
      try reflexivity.
    rewrite Hh. apply orb_false_r.
Qed.

(** X8.  The properties of a record: each is one of the twelve names
    [command], [frameworkPort], [dist], [framework], [env], [noCmd],
    [port], [jwtSecret], [jwtRolePath], [functions], [functionsPort],
    [https]; and [frameworkPort], [dist], [port], [jwtSecret],
    [jwtRolePath] and [functions] are always there. *)
Theorem record_has_known_properties (devConfig flags : obj) (projectDir : string)
    (settings : obj) (t t' : trace) :
  serverSettings w devConfig flags projectDir t = (Ok settings, t') ->
  keys_within known_properties settings = true
  /\ forallb (has_prop settings)
       [ "frameworkPort"; "dist"; "port"; "jwtSecret"; "jwtRolePath"; "functions" ]
     = true.
Proof.
  intros Hok.
  pose proof (serverSettings_ok_inv w _ _ _ _ _ _ Hok) as Hinv.
  destruct Hinv as (draft0 & t0 & withPort & t2 & Hdraft0 & Hacq & _ & Hfp).
  apply serverSettings_ok_full in Hok.
  destruct Hok as (draft & t1 & Hdraft & Hsame & _ & _ & _ & _ & _ & _ & _
                   & Hkeys & Hp & Hj & Hr & Hf).
  rewrite Hdraft0 in Hdraft. inversion Hdraft; subst draft0 t0. clear Hdraft.
  destruct (Hsame "dist" eq_refl) as [_ Hd].
  destruct (Hsame "frameworkPort" eq_refl) as [Hgfp Hhfp].
  assert (Hfacts : keys_within known_properties draft = true
                   /\ has_prop draft "dist" = true
                   /\ truthy (get_prop draft "frameworkPort") = true).
  { unfold draftBeforePort in Hdraft0.
    apply bind_ok_inv in Hdraft0. destruct Hdraft0 as (s0 & t3 & Horigin & Hover).
    pose proof (applyOverrides_ok w _ _ _ _ _ _ _ Hover) as [Htruthy _].
    assert (Hdraft0 : draftBeforePort w devConfig flags projectDir t = (Ok draft, t1)).
    { unfold draftBeforePort. now rewrite (bind_ok _ _ _ _ _ Horigin). }
    apply draftBeforePort_ok in Hdraft0.
    destruct Hdraft0 as [(acquired & d & -> & _) | (_ & origin & Hshape & -> & _)].
    - repeat split; try reflexivity. exact Htruthy.
    - destruct (origin_shape_facts _ _ Hshape) as (_ & _ & _ & _ & _ & Hk).
      split; [ now apply keys_within_overridden | ].
      split; [ apply has_overridden_dist | exact Htruthy ]. }
  destruct Hfacts as (Hk & Hdist & Htruthy).
  split; [ now apply Hkeys | ].
  simpl. rewrite Hd, Hdist, Hhfp, (truthy_has _ _ Htruthy), Hp, Hj, Hr, Hf. reflexivity.
Qed.

End Record.

(* ================================================================== *)
(** ** Further properties: the ways a resolution fails or succeeds *)

Section Outcomes.

Variable w : world.

Lemma strict_eq_truthy_falsy (a b : value) :
  truthy a = true -> truthy b = false -> strict_eq a b = false.
Proof.
  destruct a as [ | | x | [x | x | x | ] | x | x | x | x ],
           b as [ | | y | [y | y | y | ] | y | y | y | y ];
    simpl; try reflexivity; try discriminate; intros Ha Hb.
  - now subst.
  - apply negb_true_iff in Ha. apply negb_false_iff in Hb.
    apply Z.eqb_eq in Hb. subst y. exact Ha.
  - apply negb_true_iff in Ha. apply negb_false_iff in Hb.
    apply String.eqb_eq in Hb. subst y. exact Ha.
Qed.

(** X9.  A [framework] that is not a string is rejected first, with a
    [TypeError], before anything is logged or any collaborator is
    asked. *)
Theorem non_string_framework_is_rejected (devConfig flags : obj) (projectDir : string)
    (t : trace) :
  is_string (get_prop devConfig "framework") = false ->
  serverSettings w devConfig flags projectDir t
  = (Throw (JsTypeError ("Invalid " ++ q "framework" ++ " option provided in config")), t).
Proof.
  intros Hstr. unfold serverSettings. apply bind_throw.
  unfold settingsOrigin. apply bind_throw. apply throw_if_true. now rewrite Hstr.
Qed.

(** X10.  Once the origin of the settings is resolved, and when the
    configured [command], if there is one, can be written into the log,
    a supplied (truthy) numeric [targetPort] equal to [port] makes the
    resolution fail with the error that the two cannot have the same
    value. *)
Theorem equal_port_and_targetPort_are_rejected (devConfig flags : obj)
    (projectDir : string) (draft : obj) (t t1 : trace) :
  settingsOrigin w devConfig flags projectDir t = (Ok draft, t1) ->
  stringifies (get_prop devConfig "command") = true ->
  truthy (get_prop devConfig "targetPort") = true ->
  is_number (get_prop devConfig "targetPort") = true ->
  strict_eq (get_prop devConfig "targetPort") (get_prop devConfig "port") = true ->
  exists t',
    serverSettings w devConfig flags projectDir t
    = (Throw (JsError (q "port" ++ " and " ++ q "targetPort"
                       ++ " options cannot have same values. Please consult the documentation for more details: https://cli.netlify.com/netlify-dev#netlifytoml-dev-block")),
       t').
Proof.
  intros Horigin Hcmd Htp Hnum Heq.
  unfold serverSettings. rewrite (bind_ok _ _ _ _ _ Horigin).
  unfold applyOverrides.
  destruct (command_override_runs w devConfig draft t1 Hcmd) as (t2 & Hrun & _).
  eexists. apply bind_throw. rewrite (bind_ok _ _ _ _ _ Hrun).
  apply bind_throw. rewrite Htp, Hnum, Heq. simpl. reflexivity.
Qed.

(** X11.  A named framework (not ["#auto"], ["#custom"] or
    ["#static"]), without a [dir] flag and without both [command] and
    [targetPort]: the detector is asked whether the framework
    qualifies.  If it does not, the resolution fails with the error that
    names the framework, and the descriptor is never fetched; if it
    does, the settings are those of the fetched descriptor. *)
Theorem named_framework_must_qualify (devConfig flags : obj) (projectDir name : string)
    (t : trace) :
  get_prop devConfig "framework" = VStr name ->
  name <> "#auto" -> name <> "#custom" -> name <> "#static" ->
  truthy (get_prop flags "dir") = false ->
  truthy (get_prop devConfig "command") && truthy (get_prop devConfig "targetPort") = false ->
  (w_hasFramework w t name projectDir = false ->
   serverSettings w devConfig flags projectDir t
   = (Throw (JsError ("Specified " ++ q "framework" ++ " detector " ++ q name
                      ++ " did not pass requirements for your project")),
      (t ++ [EvHasFramework name projectDir])%list))
  /\ (w_hasFramework w t name projectDir = true ->
      settingsOrigin w devConfig flags projectDir t
      = (Ok (getSettingsFromFramework
               (w_getFramework w (t ++ [EvHasFramework name projectDir])%list name
                  projectDir)),
         (t ++ [EvHasFramework name projectDir; EvGetFramework name projectDir])%list)).
Proof.
  intros Hfw Hauto Hcustom Hstatic Hdir Hboth.
  assert (Horigin : settingsOrigin w devConfig flags projectDir t
                    = (has <- hasFramework w name projectDir ;;
                       throw_if (negb has)
                         (JsError ("Specified " ++ q "framework" ++ " detector " ++ q name
                                   ++ " did not pass requirements for your project")) ;;
                       framework <- getFramework w name projectDir ;;
                       ret (getSettingsFromFramework framework)) t).
  { unfold settingsOrigin. rewrite Hfw. simpl (is_string _). simpl (negb true).
    rewrite (bind_ok _ _ t t tt) by reflexivity.
    rewrite Hdir, truthy_js_and, Hboth. unfold is_str. simpl.
    apply String.eqb_neq in Hauto, Hcustom, Hstatic.
    rewrite Hauto, Hcustom, Hstatic. reflexivity. }
  split; intros Hhas.
  - unfold serverSettings. apply bind_throw. rewrite Horigin.
    unfold bind, hasFramework. rewrite Hhas. reflexivity.
  - rewrite Horigin. unfold bind, hasFramework, getFramework, ret. rewrite Hhas. simpl.
    now rewrite <- app_assoc.
Qed.

(** X12.  [validateCustomSettings] accepts a configuration exactly when
    [framework] is ["#custom"] and both [command] and [targetPort] are
    supplied, or [framework] is something else and they are not both
    supplied; it logs nothing. *)
Theorem validateCustomSettings_accepts_iff (devConfig : obj) (t : trace) :
  validateCustomSettings devConfig t = (Ok tt, t)
  <-> is_str (get_prop devConfig "framework") "#custom"
      = truthy (get_prop devConfig "command") && truthy (get_prop devConfig "targetPort").
Proof.
  split.
  - apply validateCustomSettings_ok.
  - intros H. unfold validateCustomSettings, bind, throw_if.
    rewrite truthy_js_and, H.
    destruct (truthy (get_prop devConfig "command")),
      (truthy (get_prop devConfig "targetPort")); reflexivity.
Qed.

(** X13.  With [framework = "#static"], no [dir] flag, a [command]
    that can be written into the log (a string, say) and no
    [targetPort], nothing tells the application's port: the
    resolution fails with [No "targetPort" option specified or
    detected.], and the prober is never asked. *)
Theorem static_with_command_needs_targetPort (devConfig flags : obj)
    (projectDir : string) (t : trace) :
  get_prop devConfig "framework" = VStr "#static" ->
  truthy (get_prop flags "dir") = false ->
  truthy (get_prop devConfig "command") = true ->
  stringifies (get_prop devConfig "command") = true ->
  truthy (get_prop devConfig "targetPort") = false ->
  serverSettings w devConfig flags projectDir t
  = (Throw (JsError ("No " ++ q "targetPort" ++ " option specified or detected.")),
     (t ++ [EvLog (w_NETLIFYDEVLOG w ++ " Overriding " ++ w_chalk_yellow w "command"
                   ++ " with setting derived from netlify.toml [dev] block: "
                   ++ ToString (get_prop devConfig "command"))])%list).
Proof.
  intros Hfw Hdir Hcmd Hwritable Htp.
  assert (Horigin : settingsOrigin w devConfig flags projectDir t = (Ok [], t)).
  { unfold settingsOrigin. rewrite Hfw. simpl (is_string _). simpl (negb true).
    rewrite (bind_ok _ _ t t tt) by reflexivity.
    rewrite Hdir, truthy_js_and, Hcmd, Htp. reflexivity. }
  unfold serverSettings. rewrite (bind_ok _ _ _ _ _ Horigin).
  apply bind_throw. unfold applyOverrides.
  destruct (command_override_runs w devConfig [] t Hwritable) as (t2 & Hrun & Ht2).
  rewrite (bind_ok _ _ _ _ _ Hrun).
  simpl (get_prop [] _) in *. simpl (truthy VUndef) in *.
  rewrite Hcmd in *. simpl (negb false && true) in *. cbv iota in *. subst t2.
  rewrite Htp.
  unfold bind at 1. unfold ret at 1.
  unfold bind at 1.
  rewrite (throw_if_false _ _ _).
  2:{ rewrite !get_set_other by reflexivity. simpl.
      destruct (get_prop devConfig "port"); simpl; auto using andb_false_r. }
  unfold bind at 1. unfold ret.
  unfold needs_fallback. rewrite !(get_set_other _ "dist" "command") by reflexivity.
  rewrite get_set_same, Hcmd. simpl.
  reflexivity.
Qed.

End Outcomes.

Section HappyPaths.

Variable w : world.

(** Lines 137-191 succeed on a draft that needs no fallback and passes
    the checks. *)
Lemma applyOverrides_pass (devConfig flags : obj) (projectDir : string)
    (settings : obj) (t : trace) :
  let draft := overridden devConfig flags settings in
  stringifies (get_prop devConfig "command") = true ->
  (truthy (get_prop devConfig "targetPort") = true ->
   is_number (get_prop devConfig "targetPort") = true
   /\ strict_eq (get_prop devConfig "targetPort") (get_prop devConfig "port") = false
   /\ truthy (get_prop draft "command") = true
   /\ truthy (get_prop flags "dir") = false) ->
  needs_fallback draft = false ->
  truthy (get_prop draft "frameworkPort") = true ->
  (truthy (get_prop devConfig "port") = true ->
   is_number (get_prop devConfig "port") = true
   /\ strict_eq (get_prop devConfig "port") (get_prop draft "frameworkPort") = false) ->
  exists t1, applyOverrides w devConfig flags projectDir settings t = (Ok draft, t1).
Proof.
  intros draft Hwritable Htarget Hnf Hfp Hport.
  assert (Hpin : truthy (get_prop devConfig "port")
                 && strict_eq (get_prop devConfig "port") (get_prop draft "frameworkPort")
                 = false).
  { destruct (truthy (get_prop devConfig "port")); [ | reflexivity ].
    now destruct (Hport eq_refl) as [_ ->]. }
  assert (Hnum : truthy (get_prop devConfig "port")
                 && negb (is_number (get_prop devConfig "port")) = false).
  { destruct (truthy (get_prop devConfig "port")); [ | reflexivity ].
    now destruct (Hport eq_refl) as [-> _]. }
  assert (Htail : forall t0,
             (throw_if
                (truthy (get_prop devConfig "port")
                 && strict_eq (get_prop devConfig "port") (get_prop draft "frameworkPort"))
                (JsError port_conflict_message) ;;
              settings0 <-
                (if needs_fallback draft
                 then
                   log (w_NETLIFYDEVWARN w ++ " No app server detected and no "
                        ++ q "command" ++ " specified") ;;
                   getStaticServerSettings w (get_prop draft "dist")
                     (get_prop flags "staticServerPort") projectDir
                 else ret draft) ;;
              throw_if (negb (truthy (get_prop settings0 "frameworkPort")))
                (JsError ("No " ++ q "targetPort" ++ " option specified or detected.")) ;;
              throw_if
                (truthy (get_prop devConfig "port")
                 && negb (is_number (get_prop devConfig "port")))
                (JsError ("Invalid " ++ q "port" ++ " option specified. The value of "
                          ++ q "port" ++ " option must be an integer")) ;;
              throw_if
                (truthy (get_prop devConfig "port")
                 && strict_eq (get_prop devConfig "port")
                      (get_prop settings0 "frameworkPort"))
                (JsError port_conflict_message) ;;
              ret settings0) t0 = (Ok draft, t0)).
  { intros t0. rewrite Hnf, Hpin. unfold bind at 1. simpl.
    unfold bind at 1. unfold ret at 1. rewrite Hfp, Hnum, Hpin. reflexivity. }
  unfold applyOverrides. fold (needs_fallback).
  destruct (command_override_runs w devConfig settings t Hwritable) as (t2 & Hrun & _).
  exists t2. rewrite (bind_ok _ _ _ _ _ Hrun).
  unfold draft, overridden in *.
  destruct (truthy (get_prop devConfig "targetPort")) eqn:Htp.
  - destruct (Htarget eq_refl) as (Hn & Hd & Hc & Hdir).
    rewrite get_set_other in Hc by reflexivity.
    unfold bind at 1. unfold bind at 1. simpl (true && _).
    rewrite Hn, Hd, Hc, Hdir. simpl. apply Htail.
  - unfold bind at 1. unfold ret at 1. apply Htail.
Qed.

(** Lines 192-208 succeed on a draft when no [port] is pinned and there
    is no [https] block. *)
Lemma finish_without_pin (devConfig draft : obj) (t1 : trace) :
  truthy (get_prop devConfig "port") = false ->
  truthy (get_prop devConfig "https") = false ->
  exists settings t',
    (settings <- acquireProxyPort w devConfig draft ;;
     settings <- attachFunctions w devConfig settings ;;
     attachHttps w devConfig settings) t1 = (Ok settings, t').
Proof.
  intros Hport Hhttps.
  pose proof (acquireProxyPort_eq w devConfig draft t1) as Hacq. cbv zeta in Hacq.
  rewrite Hport, andb_false_r in Hacq.
  rewrite (bind_ok _ _ _ _ _ Hacq).
  match goal with
  | |- context [attachFunctions w devConfig ?s] =>
      destruct (attachFunctions_total w devConfig s
                  (t1 ++ [EvGetPort (js_or (get_prop devConfig "port") (vint DEFAULT_PORT))
                            (w_getPort w t1
                               (js_or (get_prop devConfig "port") (vint DEFAULT_PORT)))])%list)
        as (s3 & t3 & Hfun & _)
  end.
  rewrite (bind_ok _ _ _ _ _ Hfun).
  unfold attachHttps. rewrite Hhttps. unfold ret. eauto.
Qed.

(** X14.  A custom configuration resolves: with [framework = "#custom"],
    a [command] that can be written into the log (a string, say), a
    numeric [targetPort], no [dir] flag, no pinned
    [port] and no [https] block, a record is returned whose
    [framework] is ["#custom"], whose [command] and [frameworkPort] are
    the configured ones, and which is not a static server. *)
Theorem custom_configuration_resolves (devConfig flags : obj) (projectDir : string)
    (t : trace) :
  get_prop devConfig "framework" = VStr "#custom" ->
  truthy (get_prop devConfig "command") = true ->
  stringifies (get_prop devConfig "command") = true ->
  truthy (get_prop devConfig "targetPort") = true ->
  is_number (get_prop devConfig "targetPort") = true ->
  truthy (get_prop flags "dir") = false ->
  truthy (get_prop devConfig "port") = false ->
  truthy (get_prop devConfig "https") = false ->
  exists settings t',
    serverSettings w devConfig flags projectDir t = (Ok settings, t')
    /\ get_prop settings "framework" = VStr "#custom"
    /\ get_prop settings "command" = get_prop devConfig "command"
    /\ get_prop settings "frameworkPort" = get_prop devConfig "targetPort"
    /\ has_prop settings "noCmd" = false.
Proof.
  intros Hfw Hcmd Hwritable Htp Hnum Hdir Hport Hhttps.
  assert (Horigin : settingsOrigin w devConfig flags projectDir t
                    = (Ok [ ("framework", VStr "#custom") ], t)).
  { unfold settingsOrigin. rewrite Hfw. simpl (is_string _). simpl (negb true).
    rewrite (bind_ok _ _ t t tt) by reflexivity.
    rewrite Hdir, truthy_js_and, Hcmd, Htp. simpl.
    unfold validateCustomSettings. rewrite Hfw, truthy_js_and, Hcmd, Htp. reflexivity. }
  set (draft := overridden devConfig flags [ ("framework", VStr "#custom") ]).
  assert (Hc : get_prop draft "command" = get_prop devConfig "command").
  { unfold draft. rewrite get_overridden_command. simpl. now rewrite Hcmd. }
  assert (Hf : get_prop draft "frameworkPort" = get_prop devConfig "targetPort").
  { unfold draft. rewrite get_overridden_frameworkPort. now rewrite Htp. }
  destruct (applyOverrides_pass devConfig flags projectDir
              [ ("framework", VStr "#custom") ] t) as (t1 & Hover).
  - exact Hwritable.
  - intros _. fold draft. rewrite Hc.
    repeat split; auto. now apply strict_eq_truthy_falsy.
  - fold draft. unfold needs_fallback. now rewrite Hc, Hcmd.
  - fold draft. now rewrite Hf.
  - intros Hp. congruence.
  - fold draft in Hover.
    destruct (finish_without_pin devConfig draft t1 Hport Hhttps) as (settings & t' & Hfin).
    assert (Hok : serverSettings w devConfig flags projectDir t = (Ok settings, t')).
    { unfold serverSettings. rewrite (bind_ok _ _ _ _ _ Horigin).
      now rewrite (bind_ok _ _ _ _ _ Hover). }
    exists settings, t'. split; [ exact Hok | ].
    apply serverSettings_ok_full in Hok.
    destruct Hok as (draft' & t1' & Hdraft & Hsame & _).
    assert (Hd : draftBeforePort w devConfig flags projectDir t = (Ok draft, t1)).
    { unfold draftBeforePort. now rewrite (bind_ok _ _ _ _ _ Horigin). }
    rewrite Hd in Hdraft. inversion Hdraft; subst draft' t1'.
    destruct (Hsame "framework" eq_refl) as [-> _].
    destruct (Hsame "command" eq_refl) as [-> _].
    destruct (Hsame "frameworkPort" eq_refl) as [-> _].
    destruct (Hsame "noCmd" eq_refl) as [_ ->].
    destruct (get_overridden_other devConfig flags [ ("framework", VStr "#custom") ]
                "framework") as [Hgf _]; try reflexivity.
    destruct (get_overridden_other devConfig flags [ ("framework", VStr "#custom") ]
                "noCmd") as [_ Hhn]; try reflexivity.
    fold draft in Hgf, Hhn. rewrite Hgf, Hhn, Hc, Hf. repeat split.
Qed.

End HappyPaths.

Section Fallback.

Variable w : world.

(** X15.  Nothing to run: when the origin yields no settings
    ([framework = "#static"], or ["#auto"] with no candidate), there is
    no [command], [targetPort], pinned [port] or [https] block, and the
    prober returns a real (non-zero) port for the static server, the
    resolution falls back to the static server.  The record has [noCmd = true] and no [command];
    its [dist] is [publish] when that is a path, and the current
    working directory when there is no [publish]. *)
Theorem nothing_to_run_falls_back_to_static (devConfig flags : obj)
    (projectDir : string) (t t0 : trace) :
  settingsOrigin w devConfig flags projectDir t = (Ok [], t0) ->
  truthy (get_prop devConfig "command") = false ->
  truthy (get_prop devConfig "targetPort") = false ->
  truthy (get_prop devConfig "port") = false ->
  truthy (get_prop devConfig "https") = false ->
  (is_string (get_prop devConfig "publish") = true
   \/ truthy (get_prop devConfig "publish") = false) ->
  (forall t1,
      w_getPort w t1 (js_or (get_prop flags "staticServerPort") (vint DEFAULT_STATIC_PORT))
      <> 0%Z) ->
  exists settings t' d,
    serverSettings w devConfig flags projectDir t = (Ok settings, t')
    /\ get_prop settings "noCmd" = VBool true
    /\ has_prop settings "command" = false
    /\ get_prop settings "dist" = VStr d
    /\ (truthy (get_prop devConfig "publish") = true -> get_prop devConfig "publish" = VStr d)
    /\ (truthy (get_prop devConfig "publish") = false -> exists tc, d = w_process_cwd w tc).
Proof.
  intros Horigin Hcmd Htp Hport Hhttps Hpublish Hprober.
  assert (Hdir : truthy (get_prop flags "dir") = false).
  { pose proof (settingsOrigin_ok w _ _ _ _ _ _ Horigin) as [_ [[_ (a & d & Hs & _)] | [H _]]];
      [ discriminate Hs | exact H ]. }
  assert (Hstatic : exists acquired d t1,
             applyOverrides w devConfig flags projectDir [] t0
             = (Ok (static_record acquired d), t1)
             /\ (truthy (get_prop devConfig "publish") = true ->
                 get_prop devConfig "publish" = VStr d)
             /\ (truthy (get_prop devConfig "publish") = false ->
                 exists tc, d = w_process_cwd w tc)).
  { unfold applyOverrides. simpl (get_prop [] _). simpl (truthy VUndef).
    rewrite Hcmd, Htp, Hport. simpl (negb false && false). simpl (false && _).
    unfold bind at 1. unfold ret at 1.
    unfold bind at 1. unfold ret at 1.
    unfold bind at 1. unfold throw_if at 1. unfold ret at 1.
    simpl (set_prop [] _ _). simpl (get_prop [_] "command").
    simpl (get_prop [_] "framework"). simpl (get_prop [_] "noCmd").
    simpl (get_prop [_] "dist"). simpl (truthy VUndef). simpl (negb false && _).
    rewrite (js_or_falsy (get_prop flags "dir")) by exact Hdir.
    unfold getStaticServerSettings.
    destruct (truthy (get_prop devConfig "publish")) eqn:Hp.
    - destruct Hpublish as [Hstring | Hfalse]; [ | discriminate Hfalse ].
      destruct (get_prop devConfig "publish") as [ | | | | p | | | ] eqn:Epub;
        try discriminate Hstring.
      rewrite (js_or_truthy (VStr p)) by exact Hp. rewrite Hp. simpl (negb true).
      unfold bind, log, emit, ret, path_relative, getPort, throw_if. simpl.
      match goal with
      | |- context [Z.eqb (w_getPort w ?tr ?v) 0] =>
          destruct (Z.eqb (w_getPort w tr v) 0) eqn:Ez;
          [ apply Z.eqb_eq in Ez; exfalso; exact (Hprober tr Ez) | ]
      end.
      simpl. eexists. exists p. eexists. split; [ reflexivity | ].
      split; [ reflexivity | discriminate ].
    - rewrite (js_or_falsy (get_prop devConfig "publish")) by exact Hp.
      simpl (truthy VUndef). simpl (negb false).
      unfold bind, log, emit, ret, path_relative, getPort, throw_if, process_cwd. simpl.
      match goal with
      | |- context [Z.eqb (w_getPort w ?tr ?v) 0] =>
          destruct (Z.eqb (w_getPort w tr v) 0) eqn:Ez;
          [ apply Z.eqb_eq in Ez; exfalso; exact (Hprober tr Ez) | ]
      end.
      simpl. eexists. eexists. eexists. split; [ reflexivity | ].
      split; [ discriminate | ]. intros _. eexists. reflexivity. }
  destruct Hstatic as (acquired & d & t1 & Hover & Hpub & Hcwd).
  destruct (finish_without_pin w devConfig (static_record acquired d) t1 Hport Hhttps)
    as (settings & t' & Hfin).
  assert (Hok : serverSettings w devConfig flags projectDir t = (Ok settings, t')).
  { unfold serverSettings. rewrite (bind_ok _ _ _ _ _ Horigin).
    now rewrite (bind_ok _ _ _ _ _ Hover). }
  exists settings, t', d. split; [ exact Hok | ].
  apply serverSettings_ok_full in Hok.
  destruct Hok as (draft' & t1' & Hdraft & Hsame & _).
  assert (Hd : draftBeforePort w devConfig flags projectDir t
               = (Ok (static_record acquired d), t1)).
  { unfold draftBeforePort. now rewrite (bind_ok _ _ _ _ _ Horigin). }
  rewrite Hd in Hdraft. inversion Hdraft; subst draft' t1'.
  destruct (Hsame "noCmd" eq_refl) as [-> _].
  destruct (Hsame "command" eq_refl) as [_ ->].
  destruct (Hsame "dist" eq_refl) as [-> _].
  repeat split; auto.
Qed.

End Fallback.

(* ================================================================== *)
(** ** Further properties: the helpers *)

Section Helpers.

Variable w : world.

(** X16.  [readHttpsSettings] checks its options before it touches the
    disk: options that are not a plain object, or whose [keyFile] or
    [certFile] is not a string, end in a [TypeError] and no file is
    read. *)
Theorem readHttpsSettings_checks_before_reading (options : value) (t : trace) :
  isPlainObject options = false
  \/ is_string (get_member options "keyFile") = false
  \/ is_string (get_member options "certFile") = false ->
  exists message, readHttpsSettings w options t = (Throw (JsTypeError message), t).
Proof.
  intros H. unfold readHttpsSettings.
  destruct (isPlainObject options) eqn:Hplain.
  - simpl. unfold bind at 1. unfold ret at 1.
    destruct H as [H | [H | H]]; [ discriminate H | | ].
    + destruct (get_member options "keyFile"); try discriminate H;
        eexists; reflexivity.
    + destruct (get_member options "keyFile");
        try (eexists; reflexivity).
      destruct (get_member options "certFile"); try discriminate H;
        eexists; reflexivity.
  - eexists. reflexivity.
Qed.

(** X17.  Both files are always read, the key first, before either
    result is looked at; when the key cannot be read the error names
    the private key file, whatever became of the certificate. *)
Theorem unreadable_key_is_reported_first (props : obj) (keyFile certFile message : string)
    (t : trace) :
  get_prop props "keyFile" = VStr keyFile ->
  get_prop props "certFile" = VStr certFile ->
  w_readFile w t keyFile = ReadError message ->
  readHttpsSettings w (VObj props) t
  = (Throw (JsError ("Error reading private key file: " ++ message)),
     (t ++ [EvReadFile keyFile; EvReadFile certFile])%list).
Proof.
  intros Hk Hc Hkey.
  unfold readHttpsSettings. simpl. unfold bind at 1. simpl.
  rewrite Hk, Hc.
  unfold bind, readFileAsyncCatchError. rewrite Hkey.
  unfold throw. now rewrite <- app_assoc.
Qed.

(** X18.  With at most one candidate the prompt is not shown and
    nothing is logged: no candidate gives the empty settings, a single
    candidate gives its settings; the detector is asked once. *)
Theorem at_most_one_candidate_needs_no_prompt (projectDir : string) (t : trace) :
  (List.length (w_listFrameworks w t projectDir) <= 1)%nat ->
  detectFrameworkSettings w projectDir t
  = (Ok match w_listFrameworks w t projectDir with
        | [only] => getSettingsFromFramework only
        | _ => []
        end,
     (t ++ [EvListFrameworks projectDir])%list).
Proof.
  intros Hlen. unfold detectFrameworkSettings, bind, listFrameworks.
  destruct (w_listFrameworks w t projectDir) as [| f1 [| f2 rest]];
    simpl in Hlen; try lia; reflexivity.
Qed.

(** X19.  The options the prompt can offer: while nothing is typed
    ([undefined] or the empty string) they are all the formatted
    options; for any other input they are exactly the options whose
    label the fuzzy matcher returned, in their original order. *)
Theorem promptSource_offers_only_the_options (options : list choice) (input : value) :
  (truthy input = false -> promptSource w options input = options)
  /\ (truthy input = true ->
      promptSource w options input
      = filter (fun o => existsb (String.eqb (ch_name o))
                           (w_fuzzy_filter w (ToString input) (map ch_name options)))
          options)
  /\ (forall o, In o (promptSource w options input) -> In o options).
Proof.
  unfold promptSource. split; [ | split ].
  - now intros ->.
  - intros Hin. rewrite Hin. simpl.
    destruct (is_str input EmptyString) eqn:E; [ | reflexivity ].
    apply is_str_eq in E. subst input. discriminate Hin.
  - intros o. destruct (negb (truthy input) || is_str input EmptyString); [ auto | ].
    unfold filterSettings. intros Hin. apply filter_In in Hin. tauto.
Qed.

(** X20.  A candidate gets as many options as it has watch commands: a
    candidate without watch commands gets none, and when no candidate
    has one the prompt has nothing to offer. *)
Theorem options_count_watch_commands (frameworks : list framework) :
  List.length (formatSettingsArrForInquirer w frameworks)
  = list_sum (map (fun f => List.length (fw_watch_commands f)) frameworks)
  /\ ((forall f, In f frameworks -> fw_watch_commands f = []) ->
      formatSettingsArrForInquirer w frameworks = []).
Proof.
  unfold formatSettingsArrForInquirer. split.
  - induction frameworks as [| f rest IH]; [ reflexivity | ].
    cbn [List.concat map list_sum]. rewrite length_app, length_map, IH. reflexivity.
  - induction frameworks as [| f rest IH]; intros Hnone; [ reflexivity | ].
    cbn [List.concat map]. rewrite (Hnone f) by (now left). simpl.
    apply IH. intros f' Hf'. apply Hnone. now right.
Qed.

End Helpers.

(* ================================================================== *)
(** ** Further properties: what is asked of the collaborators *)

Section Effects.

Variable w : world.

Lemma count_events_app (kind : event -> bool) (t1 t2 : trace) :
  count_events kind (t1 ++ t2)%list
  = (count_events kind t1 + count_events kind t2)%nat.
Proof. unfold count_events. now rewrite filter_app, length_app. Qed.

Lemma appends_weaken {A} (kind : event -> bool) (n n' : nat) (m : M A) :
  (n <= n')%nat -> appends kind n m -> appends kind n' m.
Proof.
  intros Hle Hm t. destruct (Hm t) as (added & Ht & Hc).
  exists added. split; [ exact Ht | lia ].
Qed.

Lemma appends_ret {A} (kind : event -> bool) (a : A) : appends kind 0 (ret a).
Proof. intros t. exists []. split; [ simpl; now rewrite app_nil_r | reflexivity ]. Qed.

Lemma appends_throw {A} (kind : event -> bool) (e : js_error) :
  appends kind 0 (@throw A e).
Proof. intros t. exists []. split; [ simpl; now rewrite app_nil_r | reflexivity ]. Qed.

Lemma appends_throw_if (kind : event -> bool) (c : bool) (e : js_error) :
  appends kind 0 (throw_if c e).
Proof. destruct c; [ apply appends_throw | apply appends_ret ]. Qed.

Lemma appends_bind {A B} (kind : event -> bool) (n1 n2 : nat) (m : M A) (f : A -> M B) :
  appends kind n1 m ->
  (forall a, appends kind n2 (f a)) ->
  appends kind (n1 + n2) (bind m f).
Proof.
  intros Hm Hf t. unfold bind.
  destruct (Hm t) as (added1 & Ht1 & Hc1).
  destruct (m t) as [[a | e] t1]; simpl in Ht1; subst t1.
  - destruct (Hf a (t ++ added1)%list) as (added2 & Ht2 & Hc2).
    exists (added1 ++ added2)%list. split.
    + now rewrite Ht2, app_assoc.
    + rewrite count_events_app. lia.
  - exists added1. split; [ reflexivity | lia ].
Qed.

Lemma appends_bind0 {A B} (kind : event -> bool) (m : M A) (f : A -> M B) :
  appends kind 0 m ->
  (forall a, appends kind 0 (f a)) ->
  appends kind 0 (bind m f).
Proof. intros Hm Hf. now apply (appends_bind kind 0 0). Qed.

Lemma appends_template (kind : event -> bool) (v : value) :
  appends kind 0 (template v).
Proof.
  unfold template. destruct (stringifies v); [ apply appends_ret | apply appends_throw ].
Qed.

Lemma appends_log (kind : event -> bool) (message : string) :
  kind (EvLog message) = false -> appends kind 0 (log message).
Proof.
  intros Hk t. exists [EvLog message]. split; [ reflexivity | ].
  unfold count_events. simpl. now rewrite Hk.
Qed.

Lemma appends_getPort (kind : event -> bool) (v : value) :
  (forall p z, kind (EvGetPort p z) = false) -> appends kind 0 (getPort w v).
Proof.
  intros Hk t. eexists [_]. split; [ reflexivity | ].
  unfold count_events. simpl. now rewrite Hk.
Qed.

Lemma appends_cwd (kind : event -> bool) :
  kind EvCwd = false -> appends kind 0 (process_cwd w).
Proof.
  intros Hk t. exists [EvCwd]. split; [ reflexivity | ].
  unfold count_events. simpl. now rewrite Hk.
Qed.

Lemma appends_readFile (kind : event -> bool) (file : string) :
  kind (EvReadFile file) = false -> appends kind 0 (readFileAsyncCatchError w file).
Proof.
  intros Hk t. exists [EvReadFile file]. split; [ reflexivity | ].
  unfold count_events. simpl. now rewrite Hk.
Qed.

Lemma appends_hasFramework (kind : event -> bool) (id dir : string) :
  kind (EvHasFramework id dir) = false -> appends kind 0 (hasFramework w id dir).
Proof.
  intros Hk t. exists [EvHasFramework id dir]. split; [ reflexivity | ].
  unfold count_events. simpl. now rewrite Hk.
Qed.

Lemma appends_getFramework (kind : event -> bool) (id dir : string) :
  kind (EvGetFramework id dir) = false -> appends kind 0 (getFramework w id dir).
Proof.
  intros Hk t. exists [EvGetFramework id dir]. split; [ reflexivity | ].
  unfold count_events. simpl. now rewrite Hk.
Qed.

Lemma appends_listFrameworks (kind : event -> bool) (dir : string) :
  kind (EvListFrameworks dir) = false -> appends kind 0 (listFrameworks w dir).
Proof.
  intros Hk t. exists [EvListFrameworks dir]. split; [ reflexivity | ].
  unfold count_events. simpl. now rewrite Hk.
Qed.

(** One step of a proof that a computation adds no event of a kind. *)
Ltac quiet_step :=
  first
    [ apply appends_ret | apply appends_throw | apply appends_throw_if
    | apply appends_log; reflexivity
    | apply appends_getPort; reflexivity
    | apply appends_cwd; reflexivity
    | apply appends_readFile; reflexivity
    | apply appends_hasFramework; reflexivity
    | apply appends_getFramework; reflexivity
    | apply appends_listFrameworks; reflexivity
    | apply appends_bind0; [ | intro ]
    | match goal with
      | |- appends _ 0 (if ?c then _ else _) => destruct c
      | |- appends _ 0 (match ?x with _ => _ end) => destruct x
      end ].

Ltac quiet := repeat quiet_step.

Lemma getStaticServerSettings_quiet (kind : event -> bool) (dist port : value)
    (dir : string) :
  (forall e, kind e = true -> is_detector e = true \/ is_read e = true) ->
  appends kind 0 (getStaticServerSettings w dist port dir).
Proof.
  intros Hkind.
  assert (Hlog : forall m, kind (EvLog m) = false).
  { intros m. destruct (kind (EvLog m)) eqn:E; [ | reflexivity ].
    destruct (Hkind _ E) as [H | H]; discriminate H. }
  assert (Hport : forall p z, kind (EvGetPort p z) = false).
  { intros p z. destruct (kind (EvGetPort p z)) eqn:E; [ | reflexivity ].
    destruct (Hkind _ E) as [H | H]; discriminate H. }
  assert (Hcwd : kind EvCwd = false).
  { destruct (kind EvCwd) eqn:E; [ | reflexivity ].
    destruct (Hkind _ E) as [H | H]; discriminate H. }
  unfold getStaticServerSettings, path_relative.
  apply appends_bind0.
  { destruct (negb (truthy dist)); [ | apply appends_ret ].
    repeat (apply appends_bind0; [ apply appends_log; apply Hlog | intro ]).
    apply appends_bind0; [ apply appends_cwd; exact Hcwd | intro; apply appends_ret ]. }
  intro d. apply appends_bind0.
  { destruct d; first [ apply appends_ret | apply appends_throw ]. }
  intro. apply appends_bind0; [ apply appends_log; apply Hlog | intro ].
  apply appends_bind0; [ apply appends_getPort; exact Hport | intro; apply appends_ret ].
Qed.

Lemma applyOverrides_quiet (kind : event -> bool) (devConfig flags : obj)
    (dir : string) (settings : obj) :
  (forall e, kind e = true -> is_detector e = true \/ is_read e = true) ->
  appends kind 0 (applyOverrides w devConfig flags dir settings).
Proof.
  intros Hkind.
  assert (Hlog : forall m, kind (EvLog m) = false).
  { intros m. destruct (kind (EvLog m)) eqn:E; [ | reflexivity ].
    destruct (Hkind _ E) as [H | H]; discriminate H. }
  unfold applyOverrides.
  apply appends_bind0.
  { match goal with |- appends _ 0 (if ?c then _ else _) => destruct c end;
      [ | apply appends_ret ].
    apply appends_bind0; [ apply appends_template | intro ].
    apply appends_bind0; [ apply appends_log; apply Hlog | intro; apply appends_ret ]. }
  intro. apply appends_bind0.
  { match goal with |- appends _ 0 (if ?c then _ else _) => destruct c end; quiet. }
  intro. apply appends_bind0; [ apply appends_throw_if | intro ].
  apply appends_bind0.
  { match goal with |- appends _ 0 (if ?c then _ else _) => destruct c end;
      [ | apply appends_ret ].
    apply appends_bind0; [ apply appends_log; apply Hlog | intro ].
    now apply getStaticServerSettings_quiet. }
  intro. quiet.
Qed.

Lemma readHttpsSettings_reads_twice (options : value) :
  appends is_read 2 (readHttpsSettings w options).
Proof.
  unfold readHttpsSettings.
  apply (appends_bind is_read 0 2); [ apply appends_throw_if | intro ].
  destruct (get_member options "keyFile");
    try (apply (appends_weaken is_read 0 2); [ lia | apply appends_throw ]).
  destruct (get_member options "certFile");
    try (apply (appends_weaken is_read 0 2); [ lia | apply appends_throw ]).
  intros t. unfold bind, readFileAsyncCatchError.
  exists [EvReadFile s; EvReadFile s0]. split.
  - destruct (w_readFile w t s);
      destruct (w_readFile w (t ++ [EvReadFile s])%list s0); simpl;
      now rewrite <- app_assoc.
  - unfold count_events. simpl. lia.
Qed.

Lemma readHttpsSettings_no_detector (options : value) :
  appends is_detector 0 (readHttpsSettings w options).
Proof. unfold readHttpsSettings. quiet. Qed.

Lemma attachHttps_no_detector (devConfig settings : obj) :
  appends is_detector 0 (attachHttps w devConfig settings).
Proof.
  unfold attachHttps. destruct (truthy (get_prop devConfig "https")); [ | apply appends_ret ].
  apply appends_bind0; [ apply readHttpsSettings_no_detector | intro; apply appends_ret ].
Qed.

Lemma detectFrameworkSettings_no_read (dir : string) :
  appends is_read 0 (detectFrameworkSettings w dir).
Proof.
  unfold detectFrameworkSettings.
  apply appends_bind0; [ apply appends_listFrameworks; reflexivity | intro fs ].
  destruct fs as [| f1 [| f2 rest]]; try apply appends_ret.
  apply appends_bind0.
  { intros t. eexists [_]. split; [ reflexivity | reflexivity ]. }
  intro. quiet.
Qed.

Lemma detectFrameworkSettings_prompts_once (dir : string) :
  appends is_prompt 1 (detectFrameworkSettings w dir).
Proof.
  unfold detectFrameworkSettings.
  apply (appends_bind is_prompt 0 1); [ apply appends_listFrameworks; reflexivity | intro fs ].
  destruct fs as [| f1 [| f2 rest]];
    try (apply (appends_weaken is_prompt 0 1); [ lia | apply appends_ret ]).
  apply (appends_bind is_prompt 1 0).
  { intros t. eexists [_]. split; [ reflexivity | ]. unfold count_events. simpl. lia. }
  intro. quiet.
Qed.

Lemma settingsOrigin_no_read (devConfig flags : obj) (dir : string) :
  appends is_read 0 (settingsOrigin w devConfig flags dir).
Proof.
  unfold settingsOrigin.
  apply appends_bind0; [ apply appends_throw_if | intro ].
  destruct (truthy (get_prop flags "dir")).
  { apply appends_bind0; [ apply appends_log; reflexivity | intro ].
    apply getStaticServerSettings_quiet. intros e He. now right. }
  match goal with |- appends _ 0 (if ?c then _ else _) => destruct c end.
  { apply detectFrameworkSettings_no_read. }
  unfold validateCustomSettings. quiet.
Qed.

Lemma settingsOrigin_prompts_once (devConfig flags : obj) (dir : string) :
  appends is_prompt 1 (settingsOrigin w devConfig flags dir).
Proof.
  unfold settingsOrigin.
  apply (appends_bind is_prompt 0 1); [ apply appends_throw_if | intro ].
  destruct (truthy (get_prop flags "dir")).
  { apply (appends_weaken is_prompt 0 1); [ lia | ].
    apply appends_bind0; [ apply appends_log; reflexivity | intro ].
    apply getStaticServerSettings_quiet. intros e He. left.
    destruct e; try discriminate He; reflexivity. }
  match goal with |- appends _ 1 (if ?c then _ else _) => destruct c end.
  { apply detectFrameworkSettings_prompts_once. }
  apply (appends_weaken is_prompt 0 1); [ lia | ].
  unfold validateCustomSettings. quiet.
Qed.

Lemma is_prompt_is_detector (e : event) :
  is_prompt e = true -> is_detector e = true \/ is_read e = true.
Proof. destruct e; try discriminate; now left. Qed.

(** X21.  A resolution only ever adds to the trace of what happened,
    and it shows the prompt at most once. *)
Theorem prompt_is_shown_at_most_once (devConfig flags : obj) (projectDir : string) :
  appends is_prompt 1 (serverSettings w devConfig flags projectDir).
Proof.
  unfold serverSettings.
  apply (appends_bind is_prompt 1 0); [ apply settingsOrigin_prompts_once | intro ].
  apply appends_bind0;
    [ apply applyOverrides_quiet; exact is_prompt_is_detector | intro ].
  apply appends_bind0.
  { unfold acquireProxyPort. quiet. }
  intro. apply appends_bind0.
  { unfold attachFunctions. quiet. }
  intro. unfold attachHttps, readHttpsSettings. quiet.
Qed.

(** X22.  The framework detector and the prompt are left alone when
    they are not needed: with a [dir] flag, with [framework] set to
    ["#static"] or ["#custom"], or with both [command] and [targetPort]
    supplied, no detector call and no prompt is added to the trace. *)
Theorem detector_is_not_consulted_needlessly (devConfig flags : obj)
    (projectDir : string) :
  truthy (get_prop flags "dir") = true
  \/ get_prop devConfig "framework" = VStr "#static"
  \/ get_prop devConfig "framework" = VStr "#custom"
  \/ truthy (get_prop devConfig "command") && truthy (get_prop devConfig "targetPort") = true ->
  appends is_detector 0 (serverSettings w devConfig flags projectDir).
Proof.
  intros Hcase.
  assert (Hnone : forall e, is_detector e = true -> is_detector e = true \/ is_read e = true)
    by (intros e He; now left).
  unfold serverSettings.
  apply appends_bind0.
  { unfold settingsOrigin.
    apply appends_bind0; [ apply appends_throw_if | intro ].
    destruct (truthy (get_prop flags "dir")) eqn:Hdir.
    { apply appends_bind0; [ apply appends_log; reflexivity | intro ].
      now apply getStaticServerSettings_quiet. }
    rewrite truthy_js_and.
    destruct Hcase as [H | [H | [H | H]]].
    - discriminate H.
    - rewrite H. simpl.
      destruct (truthy (get_prop devConfig "command")
                && truthy (get_prop devConfig "targetPort"));
        unfold validateCustomSettings; quiet.
    - rewrite H. simpl. unfold validateCustomSettings. quiet.
    - rewrite H. rewrite andb_false_r, orb_true_r. unfold validateCustomSettings. quiet. }
  intro. apply appends_bind0; [ now apply applyOverrides_quiet | intro ].
  apply appends_bind0.
  { unfold acquireProxyPort. quiet. }
  intro. apply appends_bind0.
  { unfold attachFunctions. quiet. }
  intro. apply attachHttps_no_detector.
Qed.

(** X23.  Files are read for the TLS material only: a resolution reads
    at most two files, and none at all when the configuration has no
    [https] block. *)
Theorem files_are_read_for_https_only (devConfig flags : obj) (projectDir : string) :
  appends is_read 2 (serverSettings w devConfig flags projectDir)
  /\ (truthy (get_prop devConfig "https") = false ->
      appends is_read 0 (serverSettings w devConfig flags projectDir)).
Proof.
  assert (Hnone : forall e, is_read e = true -> is_detector e = true \/ is_read e = true)
    by (intros e He; now right).
  assert (Hbefore : forall (rest : obj -> M obj) n,
             (forall s, appends is_read n (rest s)) ->
             appends is_read n
               (settings <- settingsOrigin w devConfig flags projectDir ;;
                settings <- applyOverrides w devConfig flags projectDir settings ;;
                settings <- acquireProxyPort w devConfig settings ;;
                settings <- attachFunctions w devConfig settings ;;
                rest settings)).
  { intros rest n Hrest.
    apply (appends_bind is_read 0 n); [ apply settingsOrigin_no_read | intro ].
    apply (appends_bind is_read 0 n); [ now apply applyOverrides_quiet | intro ].
    apply (appends_bind is_read 0 n); [ unfold acquireProxyPort; quiet | intro ].
    apply (appends_bind is_read 0 n); [ unfold attachFunctions; quiet | intro ].
    apply Hrest. }
  split.
  - unfold serverSettings. apply Hbefore. intros s. unfold attachHttps.
    destruct (truthy (get_prop devConfig "https")).
    + apply (appends_bind is_read 2 0);
        [ apply readHttpsSettings_reads_twice | intro; apply appends_ret ].
    + apply (appends_weaken is_read 0 2); [ lia | apply appends_ret ].
  - intros Hhttps. unfold serverSettings. apply Hbefore. intros s.
    unfold attachHttps. rewrite Hhttps. apply appends_ret.
Qed.

End Effects.

(* ================================================================== *)
(** ** The further properties at the sample inputs *)

Lemma targetPort_becomes_frameworkPort_witness :
  let run := serverSettings stub_world custom_full [] "/site" [] in
  get_prop (record_of run) "frameworkPort" = vint 3000
  /\ is_number (vint 3000) = true
  /\ strict_eq (vint 3000) (vint 9000) = false
  /\ truthy (get_prop (record_of run) "command") = true
  /\ has_prop (record_of run) "noCmd" = false
  /\ truthy (get_prop [] "dir") = false.
Proof.
  intros run.
  apply (targetPort_becomes_frameworkPort stub_world custom_full [] "/site"
           (record_of run) [] (snd run)).
  - vm_compute. reflexivity.
  - reflexivity.
Defined.

Lemma configured_command_wins_witness :
  let run := serverSettings (detector_world [gatsby] true) 
               [ ("framework", VStr "#auto"); ("command", VStr "npm run dev") ]
               [] "/site" [] in
  get_prop (record_of run) "command" = VStr "npm run dev".
Proof.
  intros run.
  apply (configured_command_wins (detector_world [gatsby] true)
           [ ("framework", VStr "#auto"); ("command", VStr "npm run dev") ]
           [] "/site" (record_of run) [] (snd run)).
  - vm_compute. reflexivity.
  - reflexivity.
  - reflexivity.
Defined.

Lemma record_is_static_or_runnable_witness :
  let run := serverSettings stub_world static_with_publish [] "/site" [] in
  (get_prop (record_of run) "noCmd" = VBool true
   /\ (exists t0,
          get_prop (record_of run) "frameworkPort"
          = vint (w_getPort stub_world t0 (vint DEFAULT_STATIC_PORT)))
   /\ (exists d, get_prop (record_of run) "dist" = VStr d)
   /\ has_prop (record_of run) "command" = false
   /\ has_prop (record_of run) "framework" = false
   /\ has_prop (record_of run) "env" = false)
  \/ (has_prop (record_of run) "noCmd" = false
      /\ truthy (get_prop (record_of run) "command")
         || truthy (get_prop (record_of run) "framework") = true).
Proof.
  intros run.
  apply (record_is_static_or_runnable stub_world static_with_publish [] "/site"
           (record_of run) [] (snd run)).
  vm_compute. reflexivity.
Defined.

Lemma dist_prefers_flag_then_publish_witness :
  let run := serverSettings (detector_world [gatsby] true)
               [ ("framework", VStr "#auto"); ("publish", VStr "out") ]
               [] "/site" [] in
  get_prop (record_of run) "dist" = VStr "out".
Proof.
  intros run.
  apply (dist_prefers_flag_then_publish (detector_world [gatsby] true)
           [ ("framework", VStr "#auto"); ("publish", VStr "out") ]
           [] "/site" (record_of run) [] (snd run)).
  - vm_compute. reflexivity.
  - reflexivity.
Defined.

Lemma jwt_settings_are_defaulted_witness :
  let run := serverSettings stub_world custom_full [] "/site" [] in
  get_prop (record_of run) "jwtSecret" = VStr "secret"
  /\ get_prop (record_of run) "jwtRolePath" = VStr "app_metadata.authorization.roles"
  /\ truthy (get_prop (record_of run) "jwtSecret") = true
  /\ truthy (get_prop (record_of run) "jwtRolePath") = true.
Proof.
  intros run.
  apply (jwt_settings_are_defaulted stub_world custom_full [] "/site"
           (record_of run) [] (snd run)).
  vm_compute. reflexivity.
Defined.

Lemma functionsPort_iff_functions_witness :
  let run := serverSettings stub_world custom_full [] "/site" [] in
  get_prop (record_of run) "functions" = VStr "functions"
  /\ has_prop (record_of run) "functionsPort" = true
  /\ (truthy (VStr "functions") = true ->
      exists t0,
        get_prop (record_of run) "functionsPort"
        = vint (w_getPort stub_world t0 (vint 34567))).
Proof.
  intros run.
  apply (functionsPort_iff_functions stub_world custom_full [] "/site"
           (record_of run) [] (snd run)).
  vm_compute. reflexivity.
Defined.

Lemma https_iff_configured_witness :
  let run := serverSettings stub_world custom_full [] "/site" [] in
  has_prop (record_of run) "https" = true
  /\ (truthy (get_prop custom_full "https") = true ->
      exists keyFile certFile key cert t0,
        get_member (get_prop custom_full "https") "keyFile" = VStr keyFile
        /\ get_member (get_prop custom_full "https") "certFile" = VStr certFile
        /\ w_readFile stub_world t0 keyFile = ReadContent key
        /\ w_readFile stub_world (t0 ++ [EvReadFile keyFile])%list certFile
           = ReadContent cert
        /\ get_prop (record_of run) "https"
           = VObj [ ("key", VBuf key); ("cert", VBuf cert) ]
        /\ snd run = (t0 ++ [EvReadFile keyFile; EvReadFile certFile])%list).
Proof.
  intros run.
  apply (https_iff_configured stub_world custom_full [] "/site"
           (record_of run) [] (snd run)).
  vm_compute. reflexivity.
Defined.

Lemma record_has_known_properties_witness :
  let run := serverSettings stub_world custom_full [] "/site" [] in
  keys_within known_properties (record_of run) = true
  /\ forallb (has_prop (record_of run))
       [ "frameworkPort"; "dist"; "port"; "jwtSecret"; "jwtRolePath"; "functions" ]
     = true.
Proof.
  intros run.
  apply (record_has_known_properties stub_world custom_full [] "/site"
           (record_of run) [] (snd run)).
  vm_compute. reflexivity.
Defined.

Lemma non_string_framework_is_rejected_witness :
  serverSettings stub_world [ ("command", VStr "npm start") ] [] "/site" []
  = (Throw (JsTypeError ("Invalid " ++ q "framework" ++ " option provided in config")), []).
Proof.
  apply (non_string_framework_is_rejected stub_world [ ("command", VStr "npm start") ]
           [] "/site" []).
  reflexivity.
Defined.

Lemma equal_port_and_targetPort_are_rejected_witness :
  exists t',
    serverSettings stub_world custom_same_ports [] "/site" []
    = (Throw (JsError (q "port" ++ " and " ++ q "targetPort"
                       ++ " options cannot have same values. Please consult the documentation for more details: https://cli.netlify.com/netlify-dev#netlifytoml-dev-block")),
       t').
Proof.
  pose (run := settingsOrigin stub_world custom_same_ports [] "/site" []).
  apply (equal_port_and_targetPort_are_rejected stub_world custom_same_ports [] "/site"
           (record_of run) [] (snd run)); reflexivity.
Defined.

Lemma named_framework_must_qualify_witness :
  serverSettings (detector_world [] false) named_gatsby [] "/site" []
  = (Throw (JsError ("Specified " ++ q "framework" ++ " detector " ++ q "gatsby"
                     ++ " did not pass requirements for your project")),
     [EvHasFramework "gatsby" "/site"])
  /\ settingsOrigin (detector_world [] true) named_gatsby [] "/site" []
     = (Ok (getSettingsFromFramework gatsby),
        [EvHasFramework "gatsby" "/site"; EvGetFramework "gatsby" "/site"]).
Proof.
  split.
  - apply (proj1 (named_framework_must_qualify (detector_world [] false) named_gatsby []
                    "/site" "gatsby" [] eq_refl
                    ltac:(discriminate) ltac:(discriminate) ltac:(discriminate)
                    eq_refl eq_refl)).
    reflexivity.
  - apply (proj2 (named_framework_must_qualify (detector_world [] true) named_gatsby []
                    "/site" "gatsby" [] eq_refl
                    ltac:(discriminate) ltac:(discriminate) ltac:(discriminate)
                    eq_refl eq_refl)).
    reflexivity.
Defined.

Lemma validateCustomSettings_accepts_iff_witness :
  validateCustomSettings custom_full [] = (Ok tt, [])
  /\ validateCustomSettings custom_without_port [] <> (Ok tt, []).
Proof.
  split.
  - apply (proj2 (validateCustomSettings_accepts_iff custom_full [])). reflexivity.
  - intros H.
    apply (proj1 (validateCustomSettings_accepts_iff custom_without_port [])) in H.
    discriminate H.
Defined.

Lemma static_with_command_needs_targetPort_witness :
  serverSettings stub_world static_with_command [] "/site" []
  = (Throw (JsError ("No " ++ q "targetPort" ++ " option specified or detected.")),
     [EvLog "[log] Overriding command with setting derived from netlify.toml [dev] block: npm start"]).
Proof.
  apply (static_with_command_needs_targetPort stub_world static_with_command []
           "/site" []); reflexivity.
Defined.

Lemma custom_configuration_resolves_witness :
  exists settings t',
    serverSettings stub_world custom_on_8888 [] "/site" [] = (Ok settings, t')
    /\ get_prop settings "framework" = VStr "#custom"
    /\ get_prop settings "command" = VStr "npm start"
    /\ get_prop settings "frameworkPort" = vint 8888
    /\ has_prop settings "noCmd" = false.
Proof.
  apply (custom_configuration_resolves stub_world custom_on_8888 [] "/site" []);
    reflexivity.
Defined.

Lemma nothing_to_run_falls_back_to_static_witness :
  exists settings t' d,
    serverSettings stub_world static_with_publish [] "/site" [] = (Ok settings, t')
    /\ get_prop settings "noCmd" = VBool true
    /\ has_prop settings "command" = false
    /\ get_prop settings "dist" = VStr d
    /\ (truthy (VStr "dist") = true -> VStr "dist" = VStr d)
    /\ (truthy (VStr "dist") = false -> exists tc, d = w_process_cwd stub_world tc).
Proof.
  apply (nothing_to_run_falls_back_to_static stub_world static_with_publish []
           "/site" [] []); try reflexivity.
  - left. reflexivity.
  - intros t1. vm_compute. intros H. discriminate H.
Defined.

Lemma readHttpsSettings_checks_before_reading_witness :
  exists message,
    readHttpsSettings stub_world (VObj [ ("keyFile", VStr "k.pem") ]) []
    = (Throw (JsTypeError message), []).
Proof.
  apply (readHttpsSettings_checks_before_reading stub_world
           (VObj [ ("keyFile", VStr "k.pem") ]) []).
  right. right. reflexivity.
Defined.

Lemma unreadable_key_is_reported_first_witness :
  readHttpsSettings stub_world (VObj tls_key_missing) []
  = (Throw (JsError "Error reading private key file: ENOENT: no such file, open 'c.pem'"),
     [EvReadFile "c.pem"; EvReadFile "k.pem"]).
Proof.
  apply (unreadable_key_is_reported_first stub_world tls_key_missing "c.pem" "k.pem"
           "ENOENT: no such file, open 'c.pem'" []); reflexivity.
Defined.

Lemma at_most_one_candidate_needs_no_prompt_witness :
  detectFrameworkSettings (detector_world [hugo] true) "/site" []
  = (Ok (getSettingsFromFramework hugo), [EvListFrameworks "/site"])
  /\ detectFrameworkSettings (detector_world [] true) "/site" []
     = (Ok [], [EvListFrameworks "/site"]).
Proof.
  split.
  - apply (at_most_one_candidate_needs_no_prompt (detector_world [hugo] true) "/site" []).
    simpl. lia.
  - apply (at_most_one_candidate_needs_no_prompt (detector_world [] true) "/site" []).
    simpl. lia.
Defined.

Lemma promptSource_offers_only_the_options_witness :
  let options := formatSettingsArrForInquirer stub_world [gatsby; create_react_app] in
  promptSource stub_world options VUndef = options
  /\ promptSource stub_world options (VStr "gat") = options
  /\ (forall o, In o (promptSource stub_world options (VStr "gat")) -> In o options).
Proof.
  intros options.
  destruct (promptSource_offers_only_the_options stub_world options VUndef)
    as (Hempty & _ & _).
  destruct (promptSource_offers_only_the_options stub_world options (VStr "gat"))
    as (_ & Htyped & Hsub).
  split; [ apply Hempty; reflexivity | ].
  split; [ rewrite (Htyped eq_refl); reflexivity | exact Hsub ].
Defined.

Lemma options_count_watch_commands_witness :
  List.length (formatSettingsArrForInquirer stub_world [gatsby; hugo; create_react_app])
  = 3%nat
  /\ formatSettingsArrForInquirer stub_world [hugo; hugo] = [].
Proof.
  split.
  - apply (proj1 (options_count_watch_commands stub_world [gatsby; hugo; create_react_app])).
  - apply (proj2 (options_count_watch_commands stub_world [hugo; hugo])).
    intros f [<- | [<- | []]]; reflexivity.
Defined.

Lemma detector_is_not_consulted_needlessly_witness :
  appends is_detector 0 (serverSettings stub_world custom_full dir_flag "/site").
Proof.
  apply (detector_is_not_consulted_needlessly stub_world custom_full dir_flag "/site").
  left. reflexivity.
Defined.

Lemma files_are_read_for_https_only_witness :
  appends is_read 0 (serverSettings stub_world custom_pinned [] "/site").
Proof.
  apply (proj2 (files_are_read_for_https_only stub_world custom_pinned [] "/site")).
  reflexivity.
Defined.

(* ================================================================== *)
(** ** The labels of the prompt *)

(** C6 (what the code does).  With two candidates described as the
    detector describes them (their commands under [dev.commands], no
    top-level [command]), the prompt is shown once, with one option per
    (framework, watch command) pair, and the settings are those of the
    chosen descriptor: its first dev command, its port, its directory
    and its name.  But the labels do not show the dev command: line 247
    interpolates [framework.command], which such a descriptor does not
    have, so they read [[gatsby] undefined develop] and
    [[create-react-app] undefined start]. *)
Theorem prompt_labels_miss_the_dev_command :
  exists options hint rest,
    snd (serverSettings two_descriptors_world auto_only [] "/site" [])
    = EvListFrameworks "/site"
      :: EvPrompt "Multiple possible start commands found" options
      :: EvLog hint :: rest
    /\ count_prompts (snd (serverSettings two_descriptors_world auto_only [] "/site" []))
       = 1%nat
    /\ map ch_value options
       = [ spread_commands gatsby_descriptor ["develop"];
           spread_commands create_react_app_descriptor ["start"] ]
    /\ map ch_name options
       = [ "[gatsby] undefined develop"; "[create-react-app] undefined start" ]
    /\ ~ In "[gatsby] gatsby develop develop" (map ch_name options)
    /\ ~ In "[create-react-app] react-scripts start start" (map ch_name options)
    /\ fst (serverSettings two_descriptors_world auto_only [] "/site" [])
       = Ok [ ("command", VStr "react-scripts start");
              ("frameworkPort", vint 3000);
              ("dist", VStr "build");
              ("framework", VStr "create-react-app");
              ("env", VObj []);
              ("port", vint 8888);
              ("jwtSecret", VStr "secret");
              ("jwtRolePath", VStr "app_metadata.authorization.roles");
              ("functions", VUndef) ].
Proof.
  eexists. eexists. eexists.
  split; [ vm_compute; reflexivity | ].
  split; [ vm_compute; reflexivity | ].
  split; [ vm_compute; reflexivity | ].
  split; [ vm_compute; reflexivity | ].
  split; [ vm_compute; intros [H | [H | []]]; discriminate H | ].
  split; [ vm_compute; intros [H | [H | []]]; discriminate H | ].
  vm_compute. reflexivity.
Qed.
